(** * flax: the "Why NNX?" notebook, the Build workflow and the layers index

    A shallow embedding of the three artifacts of the repository slice:

    - [LayersIndex]: the reStructuredText API index of [flax.linen] layers
      (directives and autosummary listings);
    - [Workflow], [Shell], [Build]: the GitHub Actions workflow "Build"
      (triggers, jobs, matrices, [needs] edges, and the bash scripts of its
      [run] steps, with an interpreter for the fragment of bash they use);
    - [Nnx], [Notebook]: the Python cells of the notebook
      ([CounterLinear], [forward], and the usage-level split/merge
      mechanism).  *)

From Stdlib Require Import ZArith Ascii String List Bool Lia.
From Stdlib Require Import DecimalString DecimalN DecimalNat.
From stdpp Require Import base option list strings gmap.

Local Open Scope string_scope.
Set Warnings "-register-all".

(** ** Strings *)

(** Concatenation, written as in the sources ([a ++ b] is reserved for lists
    once stdpp is loaded). *)
Notation "a ^^ b" := (String.append a b)
  (at level 60, right associativity) : string_scope.

(** Literal prefixes compute. *)
Arguments String.append !s1 s2 : simpl nomatch.

Definition str_in (s : string) (l : list string) : bool :=
  existsb (String.eqb s) l.

(** No [/] in the string. *)
Fixpoint slash_free (s : string) : bool :=
  match s with
  | EmptyString => true
  | String c r => negb (Ascii.eqb c "/") && slash_free r
  end.

(** No line feed in the string. *)
Fixpoint no_newline (s : string) : bool :=
  match s with
  | EmptyString => true
  | String c r => negb (Ascii.eqb c (ascii_of_nat 10)) && no_newline r
  end.

(** Every character of the string satisfies [p]. *)
Fixpoint all_chars (p : ascii -> bool) (s : string) : bool :=
  match s with
  | EmptyString => true
  | String c r => p c && all_chars p r
  end.

(** * The layers index (docs/api_reference/flax.linen/layers.rst) *)

Module LayersIndex.

(** The directives the file uses. *)
Inductive directive :=
| CurrentModule (module : string)
| FlaxModule (module class : string)
| AutoFunction (name : string)
| AutoSummary (toctree : string) (template : option string)
              (entries : list string).

Record rst_section := {
  title : string;
  body : list directive
}.

Record document := {
  doc_title : string;
  preamble : list directive;
  sections : list rst_section
}.

Definition linen (c : string) : directive := FlaxModule "flax.linen" c.

Definition layers : document := {|
  doc_title := "Layers";
  preamble := [CurrentModule "flax.linen"];
  sections := [
    {| title := "Linear Modules";
       body := [linen "Dense"; linen "DenseGeneral"; linen "Conv";
                linen "ConvTranspose"; linen "ConvLocal"; linen "Embed"] |};
    {| title := "Pooling";
       body := [AutoFunction "max_pool"; AutoFunction "avg_pool";
                AutoFunction "pool"] |};
    {| title := "Normalization";
       body := [linen "BatchNorm"; linen "LayerNorm"; linen "GroupNorm";
                linen "RMSNorm"; linen "InstanceNorm"; linen "SpectralNorm";
                linen "WeightNorm"] |};
    {| title := "Combinators";
       body := [linen "Sequential"] |};
    {| title := "Stochastic";
       body := [linen "Dropout"] |};
    {| title := "Attention";
       body := [linen "MultiHeadDotProductAttention";
                linen "MultiHeadAttention"; linen "SelfAttention";
                AutoFunction "dot_product_attention_weights";
                AutoFunction "dot_product_attention";
                AutoFunction "make_attention_mask";
                AutoFunction "make_causal_mask"] |};
    {| title := "Recurrent";
       body := [linen "RNNCellBase"; linen "LSTMCell";
                linen "OptimizedLSTMCell"; linen "GRUCell"; linen "MGUCell";
                linen "RNN"; linen "Bidirectional"] |};
    {| title := "BatchApply";
       body := [linen "BatchApply";
                (* **Summary** *)
                AutoSummary "_autosummary" (Some "flax_module")
                  ["Dense"; "DenseGeneral"; "Conv"; "ConvTranspose";
                   "ConvLocal"; "Embed"; "BatchNorm"; "LayerNorm";
                   "GroupNorm"; "RMSNorm"; "SpectralNorm"; "WeightNorm";
                   "Sequential"; "Dropout"; "MultiHeadDotProductAttention";
                   "MultiHeadAttention"; "SelfAttention"; "RNNCellBase";
                   "LSTMCell"; "OptimizedLSTMCell"; "GRUCell"; "RNN";
                   "Bidirectional"];
                AutoSummary "_autosummary" None
                  ["max_pool"; "avg_pool"; "pool";
                   "dot_product_attention_weights"; "dot_product_attention";
                   "make_attention_mask"; "make_causal_mask"]] |}
  ]
|}.

Definition directives (d : document) : list directive :=
  preamble d ++ flat_map body (sections d).

(** Classes documented with a [flax_module] directive, in file order. *)
Definition flax_module_classes (d : document) : list string :=
  flat_map (fun x => match x with FlaxModule _ c => [c] | _ => [] end)
           (directives d).

(** Functions documented with an [autofunction] directive. *)
Definition autofunctions (d : document) : list string :=
  flat_map (fun x => match x with AutoFunction f => [f] | _ => [] end)
           (directives d).

(** Names listed by the [autosummary] blocks. *)
Definition autosummary_entries (d : document) : list string :=
  flat_map (fun x => match x with AutoSummary _ _ es => es | _ => [] end)
           (directives d).

(** Documented classes that the autosummary listings do not mention. *)
Definition unlisted_classes (d : document) : list string :=
  List.filter (fun c => negb (str_in c (autosummary_entries d)))
              (flax_module_classes d).

Definition unlisted_functions (d : document) : list string :=
  List.filter (fun f => negb (str_in f (autosummary_entries d)))
              (autofunctions d).

End LayersIndex.

(** * The bash fragment used by the workflow's [run] steps

    The syntax covers what the scripts of the workflow are written in; the
    interpreter follows bash as the platform starts it ([bash -e], with
    [-o pipefail] when the step says [shell: bash]). *)

Module Shell.

(** A word of a command inside [$(...)]: literal text and [$var]. *)
Inductive sfrag :=
| SLit (s : string)
| SVar (x : string).

Definition sword := list sfrag.

(** A word: literal text, [$var], and [$(c1 | c2 | ...)]. *)
Inductive frag :=
| Lit (s : string)
| Var (x : string)
| Subst (pipeline : list (list sword)).

Definition word := list frag.

(** The conditions of the scripts' [if]s. *)
Inductive test :=
| ArithGt (w : word) (k : Z)     (* (( w > k )) *)
| StrEq (a b : word)             (* [[ "a" == "b" ]] *)
| IsDir (w : word).              (* [ -d w ] *)

(** Commands.  [elif] is the nested [If] of the [else] branch; [Exec] is a
    simple command, with its [>> file] redirection when it has one. *)
Inductive cmd :=
| Skip
| Seq (c1 c2 : cmd)
| SetX
| Exec (argv : list word) (append_to : option word)
| Assign (x : string) (w : word)
| If (t : test) (then_ else_ : cmd)
| Exit (n : Z).

Declare Scope sh_scope.
Delimit Scope sh_scope with sh.
Notation "c1 ;; c2" := (Seq c1 c2)
  (at level 100, c2 at level 200, right associativity) : sh_scope.

(** ** The outside world

    What an external program does is not in the script: the interpreter asks
    the world, which sees the programs run so far, the argument vector and the
    standard input, and answers with an exit status and the standard output. *)
Definition world := list (list string) -> list string -> string -> Z * string.

Record state := {
  vars : string -> string;             (* unset variables expand to "" *)
  trace : list (list string);          (* external programs run, in order *)
  stdout : list string;                (* lines written by the script *)
  written : list (string * string)     (* (file, text) appended by >> *)
}.

Definition set_var (x v : string) (st : state) : state :=
  {| vars := fun y => if String.eqb y x then v else vars st y;
     trace := trace st; stdout := stdout st; written := written st |}.

Definition log (argv : list string) (st : state) : state :=
  {| vars := vars st; trace := trace st ++ [argv];
     stdout := stdout st; written := written st |}.

Definition emit (dest : option string) (text : string) (st : state) : state :=
  match dest with
  | None => {| vars := vars st; trace := trace st;
               stdout := stdout st ++ [text]; written := written st |}
  | Some f => {| vars := vars st; trace := trace st;
                 stdout := stdout st; written := written st ++ [(f, text)] |}
  end.

Definition newline : string := String (ascii_of_nat 10) EmptyString.

Fixpoint join (sep : string) (l : list string) : string :=
  match l with
  | [] => ""
  | [x] => x
  | x :: r => x ^^ sep ^^ join sep r
  end.

(** [$(...)] drops the trailing newlines of the captured output. *)
Fixpoint chomp (s : string) : string :=
  match s with
  | EmptyString => EmptyString
  | String c r =>
      match chomp r with
      | EmptyString =>
          if Ascii.eqb c (ascii_of_nat 10) then EmptyString
          else String c EmptyString
      | r' => String c r'
      end
  end.

(** A simple command on expanded words: [echo] is the builtin, anything else
    is asked from the world and logged.  Returns status and standard output. *)
Definition run_simple (w : world) (argv : list string) (stdin : string)
    (st : state) : Z * string * state :=
  match argv with
  | [] => (0%Z, "", st)
  | "echo" :: args => (0%Z, join " " args ^^ newline, st)
  | _ => (w (trace st) argv stdin, log argv st)
  end.

Definition expand_sword (st : state) (sw : sword) : string :=
  fold_right (fun f acc =>
                match f with SLit s => s ^^ acc | SVar x => vars st x ^^ acc end)
             "" sw.

(** A pipeline: each stage reads the output of the stage before it.  With
    [pipefail] the status is the last non-zero one, otherwise the last one. *)
Fixpoint run_pipeline (w : world) (pipefail : bool) (stages : list (list sword))
    (stdin : string) (failed : Z) (st : state) : Z * string * state :=
  match stages with
  | [] => (failed, stdin, st)
  | stage :: rest =>
      let '(rc, out, st1) :=
        run_simple w (List.map (expand_sword st) stage) stdin st in
      match rest with
      | [] => ((if Z.eqb rc 0 then (if pipefail then failed else 0%Z) else rc),
               out, st1)
      | _ => run_pipeline w pipefail rest out
               (if Z.eqb rc 0 then failed else rc) st1
      end
  end.

(** Expansion of a word, left to right; the status is that of the last command
    substitution (0 when there is none). *)
Fixpoint expand_word (w : world) (pipefail : bool) (wd : word) (rc : Z)
    (st : state) : Z * string * state :=
  match wd with
  | [] => (rc, "", st)
  | Lit s :: r =>
      let '(rc', t, st') := expand_word w pipefail r rc st in (rc', s ^^ t, st')
  | Var x :: r =>
      let '(rc', t, st') := expand_word w pipefail r rc st in
      (rc', vars st x ^^ t, st')
  | Subst p :: r =>
      let '(rc1, out, st1) := run_pipeline w pipefail p "" 0%Z st in
      let '(rc', t, st') := expand_word w pipefail r rc1 st1 in
      (rc', chomp out ^^ t, st')
  end.

Fixpoint expand_words (w : world) (pipefail : bool) (ws : list word)
    (st : state) : list string * state :=
  match ws with
  | [] => ([], st)
  | wd :: r =>
      let '(_, s, st1) := expand_word w pipefail wd 0%Z st in
      let '(ss, st2) := expand_words w pipefail r st1 in
      (s :: ss, st2)
  end.

(** ** Arithmetic: decimal numerals in 64-bit signed integers *)

Definition int64 (z : Z) : Z :=
  ((z + 2 ^ 63) mod 2 ^ 64 - 2 ^ 63)%Z.

Definition decimal_N (n : N) : string :=
  NilEmpty.string_of_uint (N.to_uint n).

(** The value of a word inside [(( ))] when it is a decimal numeral. *)
Definition arith_value (s : string) : option Z :=
  match NilEmpty.uint_of_string s with
  | Some d => if String.eqb s "" then None else Some (int64 (Z.of_N (N.of_uint d)))
  | None => None
  end.

(** ** The file system

    The file system belongs to the world too.  [test -d s] and [>> f] are done
    by bash itself, not by a program: the world is asked under the argument
    vectors [dir_test s] and [append_target f], and nothing is logged. *)
Definition dir_test (s : string) : list string := ["["; "-d"; s; "]"].

Definition is_dir (w : world) (st : state) (s : string) : bool :=
  Z.eqb (fst (w (trace st) (dir_test s) "")) 0.

Definition blank (c : ascii) : bool :=
  Ascii.eqb c " " || Ascii.eqb c (ascii_of_nat 9)
  || Ascii.eqb c (ascii_of_nat 10).

(** The target of a redirection is written without quotes in the scripts:
    when it expands to nothing, or to text with blanks, bash reports an
    ambiguous redirect.  (Pathname expansion of the target is not
    modelled.) *)
Definition one_word (f : string) : bool :=
  negb (String.eqb f "") && all_chars (fun c => negb (blank c)) f.

Definition append_target (f : string) : list string := [">>"; f].

(** Can the command's output be appended to [dest]? *)
Definition opens (w : world) (st : state) (dest : option string) : bool :=
  match dest with
  | None => true
  | Some f => one_word f && Z.eqb (fst (w (trace st) (append_target f) "")) 0
  end.

Definition eval_test (w : world) (pipefail : bool) (t : test) (st : state)
  : bool * state :=
  match t with
  | ArithGt wd k =>
      let '(_, s, st1) := expand_word w pipefail wd 0%Z st in
      (match arith_value s with Some v => Z.ltb k v | None => false end, st1)
  | StrEq a b =>
      let '(_, sa, st1) := expand_word w pipefail a 0%Z st in
      let '(_, sb, st2) := expand_word w pipefail b 0%Z st1 in
      (String.eqb sa sb, st2)
  | IsDir wd =>
      let '(_, s, st1) := expand_word w pipefail wd 0%Z st in
      (is_dir w st1 s, st1)
  end.

(** ** Commands under [bash -e]

    A command either lets the script go on, with its status, or ends it.  A
    simple command or an assignment that fails ends the script ([-e]); the
    condition of an [if] never does.  A command whose redirection fails is
    not run and fails with status 1. *)
Inductive result :=
| Next (rc : Z)
| Halt (rc : Z).

Definition errexit (rc : Z) : result :=
  if Z.eqb rc 0 then Next 0 else Halt rc.

Fixpoint run (w : world) (pipefail : bool) (c : cmd) (st : state)
  : result * state :=
  match c with
  | Skip => (Next 0, st)
  | Seq c1 c2 =>
      match run w pipefail c1 st with
      | (Next _, st1) => run w pipefail c2 st1
      | halted => halted
      end
  | SetX => (Next 0, st)
  | Exec argv dest =>
      let '(args, st1) := expand_words w pipefail argv st in
      let '(d, st2) :=
        match dest with
        | None => (None, st1)
        | Some wd =>
            let '(_, f, st') := expand_word w pipefail wd 0%Z st1 in (Some f, st')
        end in
      if opens w st2 d then
        let '(rc, out, st3) := run_simple w args "" st2 in
        (errexit rc,
         match args with
         | "echo" :: _ => emit d out st3
         | _ => st3
         end)
      else (errexit 1, st2)
  | Assign x wd =>
      let '(rc, v, st1) := expand_word w pipefail wd 0%Z st in
      (errexit rc, set_var x v st1)
  | If t c1 c2 =>
      let '(b, st1) := eval_test w pipefail t st in
      if b then run w pipefail c1 st1 else run w pipefail c2 st1
  | Exit n => (Halt (n mod 256), st)
  end.

Definition status (r : result) : Z :=
  match r with Next rc => rc | Halt rc => rc end.

Definition initial (env : string -> string) : state :=
  {| vars := env; trace := []; stdout := []; written := [] |}.

(** The exit status of a script run as a step, and what it did. *)
Definition run_script (w : world) (pipefail : bool) (env : string -> string)
    (c : cmd) : Z * state :=
  let '(r, st) := run w pipefail c (initial env) in (status r, st).

(** Does the script contain an explicit [exit]? *)
Fixpoint has_exit (c : cmd) : bool :=
  match c with
  | Seq c1 c2 => has_exit c1 || has_exit c2
  | If _ c1 c2 => has_exit c1 || has_exit c2
  | Exit _ => true
  | _ => false
  end.

(** The statuses an explicit [exit] of the script can end it with. *)
Fixpoint exit_codes (c : cmd) : list Z :=
  match c with
  | Seq c1 c2 => exit_codes c1 ++ exit_codes c2
  | If _ c1 c2 => exit_codes c1 ++ exit_codes c2
  | Exit n => [n]
  | _ => []
  end.

(** ** Values pasted into a script

    The platform replaces [${{ expr }}] by the value of the expression in the
    text of the script before bash reads it: bash reads the value as part of
    the program.

    Between double quotes the characters [$], backquote, double quote and
    backslash keep their meaning; text without them is literal. *)
Definition dq_special (c : ascii) : bool :=
  Ascii.eqb c "$" || Ascii.eqb c (ascii_of_nat 96)
  || Ascii.eqb c (ascii_of_nat 34) || Ascii.eqb c (ascii_of_nat 92).

Definition plain (s : string) : bool :=
  all_chars (fun c => negb (dq_special c)) s.

(** Characters with no meaning to bash anywhere in a word, quoted or not:
    letters, digits, [-], [_], [.] and [/]. *)
Definition word_char (c : ascii) : bool :=
  let n := nat_of_ascii c in
  (Nat.leb 97 n && Nat.leb n 122) || (Nat.leb 65 n && Nat.leb n 90)
  || (Nat.leb 48 n && Nat.leb n 57)
  || Ascii.eqb c "-" || Ascii.eqb c "_" || Ascii.eqb c "." || Ascii.eqb c "/".

Definition word_chars (s : string) : bool := all_chars word_char s.

(** The fields of a text between single spaces. *)
Fixpoint fields (s : string) : list string :=
  match s with
  | EmptyString => [EmptyString]
  | String c r =>
      if Ascii.eqb c " " then EmptyString :: fields r
      else match fields r with
           | f :: fs => String c f :: fs
           | [] => [String c EmptyString]
           end
  end.

(** The text before a final [)]. *)
Fixpoint before_paren (s : string) : option string :=
  match s with
  | EmptyString => None
  | String c EmptyString => if Ascii.eqb c ")" then Some EmptyString else None
  | String c r => option_map (String c) (before_paren r)
  end.

(** What bash makes of the text [t] between double quotes, for the two
    shapes covered: plain text is literal, and [$(prog arg ...)], with words
    of [word_chars] separated by single spaces, is a command substitution. *)
Definition pasted (t : string) : option word :=
  if plain t then Some [Lit t]
  else match t with
       | String "$" (String "(" r) =>
           match before_paren r with
           | Some inner =>
               if forallb (fun f => negb (String.eqb f "") && word_chars f)
                          (fields inner)
               then Some [Subst [List.map (fun f => [SLit f]) (fields inner)]]
               else None
           | None => None
           end
       | _ => None
       end.

End Shell.

(** * GitHub Actions workflows

    The keys of a workflow file as data, and what the platform does with them
    ([on] and its branch filters, [strategy.matrix] with [exclude], [needs],
    [if]), following the platform's documentation. *)

Module Workflow.

(** ** Expressions of [if:] keys

    Only the forms the workflow uses.  The platform compares strings
    ignoring case. *)
Inductive expr :=
| Always                          (* always() *)
| Neq (context literal : string)  (* context != 'literal' *)
| Eq (context literal : string).  (* context == 'literal' *)

Definition lower_ascii (c : ascii) : ascii :=
  let n := nat_of_ascii c in
  if Nat.leb 65 n && Nat.leb n 90 then ascii_of_nat (n + 32) else c.

Fixpoint lower (s : string) : string :=
  match s with
  | EmptyString => EmptyString
  | String c r => String (lower_ascii c) (lower r)
  end.

Definition eqb_ci (a b : string) : bool := String.eqb (lower a) (lower b).

Definition eval (ctx : string -> string) (e : expr) : bool :=
  match e with
  | Always => true
  | Neq c l => negb (eqb_ci (ctx c) l)
  | Eq c l => eqb_ci (ctx c) l
  end.

(** ** Steps, jobs, workflows *)

Inductive action :=
| Uses (name : string) (with_ : list (string * string))
| Run (script : (string -> string) -> Shell.cmd).
    (* the script after the platform has substituted its ${{ }} *)

Record step := {
  step_name : option string;
  step_id : option string;
  if_ : option expr;
  shell : option string;
  does : action
}.

Record matrix := {
  axes : list (string * list string);
  exclude : list (list (string * string))
}.

Record job := {
  id : string;
  name : string;
  needs : list string;
  runs_on : string;
  strategy : option matrix;
  steps : list step
}.

Record trigger := {
  on_event : string;
  branches : list string
}.

Record workflow := {
  workflow_name : string;
  on : list trigger;
  jobs : list job
}.

(** A step runs when its condition holds; a condition other than [always()]
    carries the implicit [success()] of the steps before it. *)
Definition step_runs (ctx : string -> string) (ok_so_far : bool) (s : step)
  : bool :=
  match if_ s with
  | None => ok_so_far
  | Some Always => true
  | Some e => ok_so_far && eval ctx e
  end.

(** [shell: bash] runs [bash --noprofile --norc -eo pipefail], no [shell] key
    runs [bash -e]. *)
Definition pipefail (s : step) : bool :=
  match shell s with
  | Some sh => String.eqb sh "bash"
  | None => false
  end.

(** ** Events and refs *)

Inductive git_ref :=
| Branch (branch : string)
| Tag (tag : string)
| PullMerge (number : nat).

Definition decimal (n : nat) : string :=
  NilEmpty.string_of_uint (Nat.to_uint n).

(** The text of a ref, as [github.ref] gives it. *)
Definition ref_name (r : git_ref) : string :=
  match r with
  | Branch b => "refs/heads/" ^^ b
  | Tag t => "refs/tags/" ^^ t
  | PullMerge n => "refs/pull/" ^^ decimal n ^^ "/merge"
  end.

Record event := {
  event_name : string;
  ref : git_ref;
  base_ref : option string   (* the target branch of a pull request *)
}.

(** The contexts an expression reads: [github.ref] and [github.event_name]
    come from the event, the others from [rest]. *)
Definition github (ev : event) (rest : string -> string) : string -> string :=
  fun k =>
    if String.eqb k "github.ref" then ref_name (ref ev)
    else if String.eqb k "github.event_name" then event_name ev
    else rest k.

(** The context in which [github.ref] is the text [s]. *)
Definition with_ref (s : string) (rest : string -> string) : string -> string :=
  fun k => if String.eqb k "github.ref" then s else rest k.

(** ** Branch filters: literal characters and [*], which matches any run of
    characters other than [/]. *)
Fixpoint glob (p s : string) : bool :=
  match p with
  | EmptyString => match s with EmptyString => true | _ => false end
  | String c p' =>
      if Ascii.eqb c "*" then
        (fix star (s : string) : bool :=
           glob p' s ||
           match s with
           | EmptyString => false
           | String d s' => if Ascii.eqb d "/" then false else star s'
           end) s
      else
        match s with
        | EmptyString => false
        | String d s' => Ascii.eqb c d && glob p' s'
        end
  end.

(** The branch a [branches] filter looks at: the target branch of a pull
    request, the pushed branch otherwise (a pushed tag has none). *)
Definition filtered_branch (ev : event) : option string :=
  if String.eqb (event_name ev) "pull_request" then base_ref ev
  else match ref ev with
       | Branch b => Some b
       | _ => None
       end.

Definition trigger_matches (t : trigger) (ev : event) : bool :=
  String.eqb (on_event t) (event_name ev) &&
  match branches t with
  | [] => true
  | ps => match filtered_branch ev with
          | Some b => existsb (fun p => glob p b) ps
          | None => false
          end
  end.

Definition triggers (w : workflow) (ev : event) : bool :=
  existsb (fun t => trigger_matches t ev) (on w).

(** ** Matrices: the product of the axes, without the combinations that an
    [exclude] entry matches. *)
Definition combo := list (string * string).

Fixpoint product (ax : list (string * list string)) : list combo :=
  match ax with
  | [] => [[]]
  | (k, vs) :: r =>
      flat_map (fun v => List.map (cons (k, v)) (product r)) vs
  end.

Definition pair_eqb (a b : string * string) : bool :=
  String.eqb (fst a) (fst b) && String.eqb (snd a) (snd b).

Definition excluded_by (c e : combo) : bool :=
  forallb (fun kv => existsb (pair_eqb kv) c) e.

Definition expand (m : matrix) : list combo :=
  List.filter (fun c => negb (existsb (excluded_by c) (exclude m)))
              (product (axes m)).

Definition job_matrix (j : job) : list combo :=
  match strategy j with
  | Some m => expand m
  | None => [[]]
  end.

(** ** Scheduling of the jobs of a run

    A job with [needs] and no [if] of its own starts once every needed job has
    succeeded, and is skipped once one of them has failed, was skipped or
    cancelled; a job that has not finished can be cancelled. *)
Inductive jstatus :=
| Pending
| Running
| Succeeded
| Failed
| Skipped
| Cancelled.

Definition jstatus_eqb (a b : jstatus) : bool :=
  match a, b with
  | Pending, Pending | Running, Running | Succeeded, Succeeded
  | Failed, Failed | Skipped, Skipped | Cancelled, Cancelled => true
  | _, _ => false
  end.

Definition run_state := string -> jstatus.

Definition all_pending : run_state := fun _ => Pending.

Definition set_status (j : string) (s : jstatus) (st : run_state) : run_state :=
  fun k => if String.eqb k j then s else st k.

Definition completed (s : jstatus) : bool :=
  match s with
  | Pending | Running => false
  | _ => true
  end.

Definition started (s : jstatus) : bool :=
  match s with
  | Running | Succeeded | Failed => true
  | _ => false
  end.

Definition can_start (st : run_state) (j : job) : bool :=
  jstatus_eqb (st (id j)) Pending &&
  forallb (fun n => jstatus_eqb (st n) Succeeded) (needs j).

Definition must_skip (st : run_state) (j : job) : bool :=
  jstatus_eqb (st (id j)) Pending &&
  existsb (fun n => match st n with
                    | Failed | Skipped | Cancelled => true
                    | _ => false
                    end) (needs j).

Inductive sched (w : workflow) : run_state -> run_state -> Prop :=
| sched_start st j :
    In j (jobs w) -> can_start st j = true ->
    sched w st (set_status (id j) Running st)
| sched_finish st j (ok : bool) :
    In j (jobs w) -> st (id j) = Running ->
    sched w st (set_status (id j) (if ok then Succeeded else Failed) st)
| sched_skip st j :
    In j (jobs w) -> must_skip st j = true ->
    sched w st (set_status (id j) Skipped st)
| sched_cancel st j :
    In j (jobs w) -> completed (st (id j)) = false ->
    sched w st (set_status (id j) Cancelled st).

Inductive reachable (w : workflow) : run_state -> Prop :=
| reach_init : reachable w all_pending
| reach_step st st' : reachable w st -> sched w st st' -> reachable w st'.

Definition find_job (w : workflow) (j : string) : option job :=
  List.find (fun x => String.eqb (id x) j) (jobs w).

End Workflow.

(** * The workflow "Build" (.github/workflows/build.yml) *)

Module Build.
Import Shell Workflow.
Local Open Scope sh_scope.

(** A command line of literal words. *)
Definition words (l : list string) : list word :=
  List.map (fun s => [Lit s]) l.

Definition swords (l : list string) : list sword :=
  List.map (fun s => [SLit s]) l.

Definition uses (a : string) (with_ : list (string * string)) : step :=
  {| step_name := None; step_id := None; if_ := None; shell := None;
     does := Uses a with_ |}.

(** *** Job [cancel-previous] *)

Definition cancel_step : step :=
  {| step_name := Some "Cancel previous"; step_id := None;
     if_ := Some (Neq "github.ref" "refs/head/main"); shell := None;
     does := Uses "styfle/cancel-workflow-action@0.10.1"
               [("access_token", "${{ github.token }}")] |}.

Definition cancel_previous : job :=
  {| id := "cancel-previous"; name := "Cancel Previous Runs"; needs := [];
     runs_on := "ubuntu-latest"; strategy := None;
     steps := [cancel_step] |}.

(** *** Job [pre-commit] *)

Definition pre_commit : job :=
  {| id := "pre-commit"; name := "Test pre-commit hooks"; needs := [];
     runs_on := "ubuntu-latest"; strategy := None;
     steps := [
       uses "actions/checkout@v3" [];
       {| step_name := Some "Set up Python"; step_id := None; if_ := None;
          shell := None;
          does := Uses "actions/setup-python@v4" [("python-version", "3.9")] |};
       uses "pre-commit/action@v2.0.3" []] |}.

(** *** Job [commit-count] *)

Definition commit_count_script : cmd :=
  SetX ;;
  Exec [[Lit "git"]; [Lit "fetch"]; [Lit "origin"]; [Lit "--unshallow"];
        [Var "GITHUB_REF"; Lit ":commit-count"]] None ;;
  Exec (words ["git"; "fetch"; "origin"; "main"]) None ;;
  Assign "diff"
    [Subst [swords ["git"; "rev-list"; "--count";
                    "origin/main...commit-count"]]] ;;
  If (ArithGt [Var "diff"] 6)
     (Exec (words ["echo";
        "ERROR! More than 5 commits in PR -- please squash your commits."])
        None ;;
      Assign "url" [Lit "https://flax.readthedocs.io/en/latest/contributing.html#too-many-commits-in-a-pull-request"] ;;
      Exec [[Lit "echo"];
            [Lit "See "; Var "url"; Lit " for help on how to resolve this."]]
        None ;;
      Exit 1)
     Skip.

Definition commit_count_step : step :=
  {| step_name := Some "Check commit count in PR"; step_id := None;
     if_ := Some Always; shell := Some "bash";
     does := Run (fun _ => commit_count_script) |}.

Definition commit_count : job :=
  {| id := "commit-count"; name := "Check commit count"; needs := [];
     runs_on := "ubuntu-latest"; strategy := None;
     steps := [uses "actions/checkout@v3" []; commit_count_step] |}.

(** *** Job [test-import] *)

Definition python_versions : list string := ["3.9"; "3.10"; "3.11"].

Definition setup_python (sid : option string) : step :=
  {| step_name := Some "Set up Python ${{ matrix.python-version }}";
     step_id := sid; if_ := None; shell := None;
     does := Uses "actions/setup-python@v4"
               [("python-version", "${{ matrix.python-version }}")] |}.

Definition run_step (nm : string) (sid : option string) (c : cmd) : step :=
  {| step_name := Some nm; step_id := sid; if_ := None; shell := None;
     does := Run (fun _ => c) |}.

Definition test_import : job :=
  {| id := "test-import"; name := "Test import standalone"; needs := [];
     runs_on := "ubuntu-latest";
     strategy := Some {| axes := [("python-version", python_versions)];
                         exclude := [] |};
     steps := [
       uses "actions/checkout@v3" [];
       setup_python None;
       run_step "Install standalone dependencies only" None
         (Exec (words ["pip"; "install"; "-e"; ".[all]"]) None);
       run_step "Test importing Flax" None
         (Exec (words ["python"; "-c"; "import flax"]) None)] |}.

(** *** Job [tests] *)

Definition test_types : list string := ["doctest"; "pytest"; "pytype"; "mypy"].

Definition tests_matrix : matrix :=
  {| axes := [("python-version", python_versions);
              ("test-type", test_types)];
     exclude := [
       [("test-type", "pytype"); ("python-version", "3.11")];
       [("test-type", "pytype"); ("python-version", "3.10")];
       [("test-type", "mypy"); ("python-version", "3.11")]] |}.

(** "Get week and year": one [echo], appended to the file that
    [$GITHUB_OUTPUT] names. *)
Definition date_key_script : cmd :=
  Exec [[Lit "echo"]; [Lit "DATE="; Subst [swords ["date"; "+%j"]]]]
       (Some [Var "GITHUB_OUTPUT"]).

(** "Install Dependencies for cache".  The words [.[all,testing]] and
    [tensorflow_datasets[dev]] stand without quotes in the script; they are
    taken as written, which is what bash does when no file name matches
    them. *)
Definition install_dependencies_script : cmd :=
  If (IsDir [Lit "venv"])
     (Exec (words ["rm"; "-rf"; "venv"]) None)
     Skip ;;
  Exec (words ["python3"; "-m"; "venv"; "venv"]) None ;;
  Exec (words ["venv/bin/python3"; "-m"; "pip"; "install"; ".[all,testing]"])
       None ;;
  Exec (words ["venv/bin/python3"; "-m"; "pip"; "install";
               "tensorflow_datasets[dev]"]) None ;;
  Exec (words ["venv/bin/python3"; "-m"; "pip"; "install"; "-r";
               "docs/requirements.txt"]) None.

Definition install_flax_script : cmd :=
  Exec (words ["venv/bin/python3"; "-m"; "pip"; "install"; "-e";
               ".[all,testing]"]) None.

(** The script of "Test with ${{ matrix.test-type }}"; [test_type] is what
    bash reads where the value is pasted between the double quotes. *)
Definition tests_script_on (test_type : word) : cmd :=
  If (StrEq test_type [Lit "doctest"])
     (Exec (words ["tests/run_all_tests.sh"; "--no-pytest"; "--no-pytype";
                   "--no-mypy"; "--use-venv"]) None)
  (If (StrEq test_type [Lit "pytest"])
     (Exec (words ["tests/run_all_tests.sh"; "--no-doctest"; "--no-pytype";
                   "--no-mypy"; "--with-cov"; "--use-venv"]) None)
  (If (StrEq test_type [Lit "pytype"])
     (Exec (words ["tests/run_all_tests.sh"; "--no-doctest"; "--no-pytest";
                   "--no-mypy"; "--use-venv"]) None)
  (If (StrEq test_type [Lit "mypy"])
     (Exec (words ["tests/run_all_tests.sh"; "--no-doctest"; "--no-pytest";
                   "--no-pytype"; "--use-venv"]) None)
     (Exec [[Lit "echo"]; Lit "Unknown test type: " :: test_type] None ;;
      Exit 1)))).

(** The script with the value [t] pasted.  A value of neither shape of
    [pasted] is outside the fragment; it is read as literal text here. *)
Definition tests_script (t : string) : cmd :=
  tests_script_on (default [Lit t] (pasted t)).

(** The double quote of the JSON payload. *)
Definition quote : string := String (ascii_of_nat 34) EmptyString.
Definition dq (s : string) : string := quote ^^ s ^^ quote.

(** The [--data] argument is a JSON object written over six lines of the
    script, between single quotes that are closed around [$lowercase_status]
    and [$status]; its lines keep three spaces of the indentation of the
    script.  These are the four pieces of text around the expansions. *)
Definition next_line : string := newline ^^ "   ".

Definition data_state : string :=
  "{" ^^ next_line ^^ dq "state" ^^ ": " ^^ quote.

Definition data_target_url : string :=
  quote ^^ "," ^^ next_line ^^ dq "target_url" ^^ ": " ^^ quote
  ^^ "https://github.com/".

Definition data_description : string :=
  quote ^^ "," ^^ next_line ^^ dq "description" ^^ ": " ^^ quote.

Definition data_context : string :=
  quote ^^ "," ^^ next_line ^^ dq "context" ^^ ": "
  ^^ dq "github-actions/Build" ^^ next_line ^^ "}".


(** The script of the status report, for pasted values of [word_chars]: such
    a value is literal text wherever it is pasted, and a variable holding one
    expands to one word without quotes. *)
Definition report_status_script (ctx : string -> string) : cmd :=
  Assign "status" [Lit (ctx "job.status")] ;;
  Assign "lowercase_status"
    [Subst [[[SLit "echo"]; [SVar "status"]];
            swords ["tr"; "[:upper:]"; "[:lower:]"]]] ;;
  Exec [[Lit "curl"]; [Lit "-sS"]; [Lit "--request"]; [Lit "POST"];
        [Lit "--url"];
        [Lit "https://api.github.com/repos/"; Lit (ctx "github.repository");
         Lit "/statuses/"; Lit (ctx "github.sha")];
        [Lit "--header"];
        [Lit "authorization: Bearer "; Lit (ctx "secrets.GITHUB_TOKEN")];
        [Lit "--header"]; [Lit "content-type: application/json"];
        [Lit "--data"];
        [Lit data_state; Var "lowercase_status";
         Lit data_target_url;
         Lit (ctx "github.repository"); Lit "/actions/runs/";
         Lit (ctx "github.run_id");
         Lit data_description; Var "status";
         Lit data_context]] None.

Definition tests_step : step :=
  {| step_name := Some "Test with ${{ matrix.test-type }}"; step_id := None;
     if_ := None; shell := None;
     does := Run (fun ctx => tests_script (ctx "matrix.test-type")) |}.

Definition report_status_step : step :=
  {| step_name := Some "Report success or failure as github status";
     step_id := None; if_ := Some Always; shell := Some "bash";
     does := Run report_status_script |}.

Definition tests : job :=
  {| id := "tests"; name := "Run Tests";
     needs := ["cancel-previous"; "pre-commit"; "commit-count"; "test-import"];
     runs_on := "ubuntu-20.04-16core";
     strategy := Some tests_matrix;
     steps := [
       uses "actions/checkout@v3" [];
       setup_python (Some "setup_python");
       run_step "Get week and year" (Some "date_key") date_key_script;
       {| step_name := Some "Cached virtual environment";
          step_id := Some "venv_cache"; if_ := None; shell := None;
          does := Uses "actions/cache@v3"
            [("path", "venv");
             ("key", "pip-${{ steps.setup_python.outputs.python-version }}-${{ steps.date_key.outputs.DATE }}-${{ hashFiles('**/requirements.txt', 'pyproject.toml') }}")] |};
       {| step_name := Some "Install Dependencies for cache"; step_id := None;
          if_ := Some (Neq "steps.venv_cache.outputs.cache-hit" "true");
          shell := None;
          does := Run (fun _ => install_dependencies_script) |};
       run_step "Install Flax" None install_flax_script;
       {| step_name := Some "Cached mypy cache"; step_id := Some "mypy_cache";
          if_ := Some (Eq "matrix.test-type" "mypy"); shell := None;
          does := Uses "actions/cache@v3"
            [("path", ".mypy_cache");
             ("key", "mypy-${{ steps.setup_python.outputs.python-version }}-${{ steps.date_key.outputs.DATE }}")] |};
       tests_step;
       {| step_name := Some "Upload coverage to Codecov"; step_id := None;
          if_ := Some (Eq "matrix.test-type" "pytest"); shell := None;
          does := Uses "codecov/codecov-action@v1"
                    [("file", "./coverage.xml")] |};
       report_status_step] |}.

Definition build : workflow :=
  {| workflow_name := "Build";
     on := [ {| on_event := "push"; branches := ["main"; "test_*"] |};
             {| on_event := "pull_request"; branches := ["main"] |} ];
     jobs := [cancel_previous; pre_commit; commit_count; test_import; tests] |}.

(** ** Queries on the workflow *)

(** The [run] steps, as (job id, step name, script). *)
Definition run_steps (w : workflow)
  : list (string * string * ((string -> string) -> cmd)) :=
  flat_map
    (fun j =>
       flat_map (fun s =>
                   match does s with
                   | Run sc => [(id j, default "" (step_name s), sc)]
                   | Uses _ _ => []
                   end) (steps j))
    (jobs w).

(** The run steps whose script has an explicit [exit], with its statuses. *)
Definition exiting_steps (ctx : string -> string) (w : workflow)
  : list (string * string * list Z) :=
  flat_map (fun '(j, n, sc) =>
              if has_exit (sc ctx) then [(j, n, exit_codes (sc ctx))] else [])
           (run_steps w).

(** The steps marked [if: always()]. *)
Definition always_steps (w : workflow) : list (string * string) :=
  flat_map
    (fun j =>
       flat_map (fun s =>
                   match if_ s with
                   | Some Always => [(id j, default "" (step_name s))]
                   | _ => []
                   end) (steps j))
    (jobs w).

(** The command line the spec words promise for a test type: the runner with
    the [--no-] flag of each other test type, [--with-cov] for pytest, and
    [--use-venv]. *)
Definition runner_argv (test_type : string) : list string :=
  "tests/run_all_tests.sh" ::
  List.map (fun t => "--no-" ^^ t)
           (List.filter (fun t => negb (String.eqb t test_type)) test_types)
  ++ (if String.eqb test_type "pytest" then ["--with-cov"] else [])
  ++ ["--use-venv"].

(** ** What git answers

    [git_reports w env n]: in the world [w] both fetches of the commit-count
    script succeed and [git rev-list --count] prints [n]. *)
Definition fetch_ref (env : string -> string) : list string :=
  ["git"; "fetch"; "origin"; "--unshallow"; env "GITHUB_REF" ^^ ":commit-count"].

Definition fetch_main : list string := ["git"; "fetch"; "origin"; "main"].

Definition rev_list : list string :=
  ["git"; "rev-list"; "--count"; "origin/main...commit-count"].

Definition git_reports (w : world) (env : string -> string) (n : N) : Prop :=
  fst (w [] (fetch_ref env) "") = 0%Z /\
  fst (w [fetch_ref env] fetch_main "") = 0%Z /\
  w [fetch_ref env; fetch_main] rev_list "" = (0%Z, decimal_N n ^^ newline).

(** A world in which every program succeeds and [git rev-list] prints [n]. *)
Definition world_counting (n : N) : world :=
  fun _ argv _ =>
    match argv with
    | _ :: "rev-list" :: _ => (0%Z, decimal_N n ^^ newline)
    | _ => (0%Z, "")
    end.

End Build.

(** * The notebook: NNX modules *)

Module Nnx.

(** ** Values *)

(** The value of a static field, as [repr] prints it in a [GraphDef]. *)
Inductive static_value :=
| SNone
| SInt (z : Z)
| SBool (b : bool)
| SObj (repr : string).

(** 32-bit signed integers ([jnp.int32]) wrap around. *)
Definition int32 (z : Z) : Z :=
  ((z + 2 ^ 31) mod 2 ^ 32 - 2 ^ 31)%Z.

Section Arrays.

(** Floating-point arrays are kept abstract. *)
Variable Tensor : Type.

(** A [jax.Array]: an int32 scalar or a float32 array. *)
Inductive Array :=
| I32 (v : Z)
| F32 (t : Tensor).

(** ** Modules, graph definitions, states *)

(** Modelled from the spec: [Module], [GraphDef], [State], [Module.split] and
    [GraphDef.merge] belong to [flax.experimental.nnx], which is not part of
    the slice.  The model follows the spec's words (split separates the
    mutable numeric state from the static structural metadata, merge puts them
    together again) and the shapes the notebook prints: a [State] maps the
    [/]-joined path of every variable to its value; a [GraphDef] keeps the
    type, an index, the static fields, the variables with their values
    emptied, and the graph definitions of the submodules.  Modules are trees:
    shared references are not modelled. *)
Inductive Module_ :=
| mk_module (type : string)
            (static_fields : list (string * static_value))
            (variables : list (string * (string * Array)))
            (submodules : list (string * Module_)).

Inductive GraphDef :=
| mk_graphdef (type : string) (index : nat)
              (static_fields : list (string * static_value))
              (variables : list (string * string))
              (submodules : list (string * GraphDef)).

Definition variables_of (m : Module_) : list (string * (string * Array)) :=
  match m with mk_module _ _ vs _ => vs end.

Definition submodules_of (m : Module_) : list (string * Module_) :=
  match m with mk_module _ _ _ ss => ss end.

(** Modelled from the spec: the dynamic state of a module below the path
    prefix [p], as (path, value) pairs in traversal order. *)
Fixpoint state_at (p : string) (m : Module_) : list (string * Array) :=
  match m with
  | mk_module _ _ vs ss =>
      List.map (fun nv => (p ^^ fst nv, snd (snd nv))) vs ++
      (fix subs (l : list (string * Module_)) : list (string * Array) :=
         match l with
         | [] => []
         | (n, sub) :: r => (state_at (p ^^ n ^^ "/") sub ++ subs r)%list
         end) ss
  end.

(** Modelled from the spec: the static structure of a module; modules are
    numbered in traversal order from [idx], and the next free index is
    returned. *)
Fixpoint graphdef_at (idx : nat) (m : Module_) : GraphDef * nat :=
  match m with
  | mk_module ty sf vs ss =>
      let '(gs, next) :=
        (fix subs (l : list (string * Module_)) (i : nat)
           : list (string * GraphDef) * nat :=
           match l with
           | [] => ([], i)
           | (n, sub) :: r =>
               let '(g, i1) := graphdef_at i sub in
               let '(gr, i2) := subs r i1 in
               ((n, g) :: gr, i2)
           end) ss (S idx) in
      (mk_graphdef ty idx sf (List.map (fun nv => (fst nv, fst (snd nv))) vs) gs,
       next)
  end.

(** Modelled from the spec: [state, static = module.split()]. *)
Definition split (m : Module_) : gmap string Array * GraphDef :=
  (list_to_map (state_at "" m), fst (graphdef_at 0 m)).

(** Modelled from the spec: rebuilding a module from its structure, reading
    each variable at its path; [None] when the state lacks a variable. *)
Fixpoint merge_at (p : string) (g : GraphDef) (s : gmap string Array)
  : option Module_ :=
  match g with
  | mk_graphdef ty _ sf gvs gss =>
      let vars :=
        (fix go (l : list (string * string))
           : option (list (string * (string * Array))) :=
           match l with
           | [] => Some []
           | (n, vt) :: r =>
               match s !! (p ^^ n), go r with
               | Some v, Some vs => Some ((n, (vt, v)) :: vs)
               | _, _ => None
               end
           end) gvs in
      let subs :=
        (fix go (l : list (string * GraphDef))
           : option (list (string * Module_)) :=
           match l with
           | [] => Some []
           | (n, g') :: r =>
               match merge_at (p ^^ n ^^ "/") g' s, go r with
               | Some m, Some ms => Some ((n, m) :: ms)
               | _, _ => None
               end
           end) gss in
      match vars, subs with
      | Some vs, Some ss => Some (mk_module ty sf vs ss)
      | _, _ => None
      end
  end.

(** The inner loops of the definitions above, by name. *)
Fixpoint states_at (p : string) (l : list (string * Module_))
  : list (string * Array) :=
  match l with
  | [] => []
  | (n, sub) :: r => (state_at (p ^^ n ^^ "/") sub ++ states_at p r)%list
  end.

Fixpoint graphdefs_at (l : list (string * Module_)) (i : nat)
  : list (string * GraphDef) * nat :=
  match l with
  | [] => ([], i)
  | (n, sub) :: r =>
      let '(g, i1) := graphdef_at i sub in
      let '(gr, i2) := graphdefs_at r i1 in
      ((n, g) :: gr, i2)
  end.

Fixpoint merge_variables (p : string) (s : gmap string Array)
    (l : list (string * string)) : option (list (string * (string * Array))) :=
  match l with
  | [] => Some []
  | (n, vt) :: r =>
      match s !! (p ^^ n), merge_variables p s r with
      | Some v, Some vs => Some ((n, (vt, v)) :: vs)
      | _, _ => None
      end
  end.

Fixpoint merge_submodules (p : string) (s : gmap string Array)
    (l : list (string * GraphDef)) : option (list (string * Module_)) :=
  match l with
  | [] => Some []
  | (n, g) :: r =>
      match merge_at (p ^^ n ^^ "/") g s, merge_submodules p s r with
      | Some m, Some ms => Some ((n, m) :: ms)
      | _, _ => None
      end
  end.

(** Modelled from the spec: [static.merge(state, ...)], with one or more
    states. *)
Definition merge (g : GraphDef) (states : list (gmap string Array))
  : option Module_ :=
  merge_at "" g (foldr (fun s acc => s ∪ acc) ∅ states).

(** Attribute names are Python identifiers: distinct within a module, and
    without [/]. *)
Fixpoint distinct (l : list string) : bool :=
  match l with
  | [] => true
  | x :: r => negb (str_in x r) && distinct r
  end.

Fixpoint well_formed (m : Module_) : bool :=
  match m with
  | mk_module _ _ vs ss =>
      distinct (List.map fst vs ++ List.map fst ss) &&
      forallb slash_free (List.map fst vs ++ List.map fst ss) &&
      (fix all (l : list (string * Module_)) : bool :=
         match l with
         | [] => true
         | (_, sub) :: r => well_formed sub && all r
         end) ss
  end.

(** [has_variable m path v]: the module holds a variable of value [v] at
    [path]. *)
Inductive has_variable : Module_ -> string -> Array -> Prop :=
| has_here ty sf vs ss n vt v :
    In (n, (vt, v)) vs ->
    has_variable (mk_module ty sf vs ss) n v
| has_below ty sf vs ss n sub path v :
    In (n, sub) ss ->
    has_variable sub path v ->
    has_variable (mk_module ty sf vs ss) (n ^^ "/" ^^ path) v.

End Arrays.

Arguments I32 {Tensor} v.
Arguments F32 {Tensor} t.
Arguments mk_module {Tensor} type static_fields variables submodules.
Arguments variables_of {Tensor} m.
Arguments submodules_of {Tensor} m.
Arguments state_at {Tensor} p m.
Arguments graphdef_at {Tensor} idx m.
Arguments split {Tensor} m.
Arguments merge_at {Tensor} p g s.
Arguments merge {Tensor} g states.
Arguments well_formed {Tensor} m.
Arguments states_at {Tensor} p l.
Arguments graphdefs_at {Tensor} l i.
Arguments merge_variables {Tensor} p s l.
Arguments merge_submodules {Tensor} p s l.
Arguments has_variable {Tensor} m path v.

End Nnx.

(** * The notebook: its Python cells *)

Module Notebook.
Import Nnx.

Section CounterLinear.

Variable Tensor : Type.
Variable Rngs : Type.

(** [nnx.Linear], with the fields the notebook prints. *)
Record Linear := {
  in_features : Z;
  out_features : Z;
  use_bias : bool;
  dtype : static_value;
  param_dtype : static_value;
  precision : static_value;
  kernel_init : static_value;
  bias_init : static_value;
  dot_general : static_value;
  kernel : Tensor;
  bias : Tensor
}.

(** The constructor and the call of [nnx.Linear] are library code outside the
    slice: parameters.  A call either returns an array or raises. *)
Variable Linear__init__ : Z -> Z -> Rngs -> Linear.
Variable Linear__call__ : Linear -> Tensor -> option Tensor.

(** [[
class CounterLinear(nnx.Module):
  def __init__(self, din, dout, *, rngs):
    self.linear = nnx.Linear(din, dout, rngs=rngs)
    self.count = Count(jnp.zeros((), jnp.int32))
  def __call__(self, x):
    self.count += 1
    return self.linear(x)
]] *)
Record CounterLinear := {
  linear : Linear;
  count : Z          (* a [Count] variable holding an int32 scalar *)
}.

Definition CounterLinear__init__ (din dout : Z) (rngs : Rngs) : CounterLinear :=
  {| linear := Linear__init__ din dout rngs;
     count := 0 |}.

(** The call updates the object in place and then returns (or raises) what
    the linear layer does: the updated object is part of the result. *)
Definition CounterLinear__call__ (self : CounterLinear) (x : Tensor)
  : CounterLinear * option Tensor :=
  let self := {| linear := linear self; count := int32 (count self + 1) |} in
  (self, Linear__call__ (linear self) x).

(** ** The modules as NNX sees them *)

Definition Linear_module (l : Linear) : Module_ Tensor :=
  mk_module "Linear"
    [("bias_init", bias_init l); ("dot_general", dot_general l);
     ("dtype", dtype l); ("in_features", SInt (in_features l));
     ("kernel_init", kernel_init l); ("out_features", SInt (out_features l));
     ("param_dtype", param_dtype l); ("precision", precision l);
     ("use_bias", SBool (use_bias l))]
    [("bias", ("Param", F32 (bias l))); ("kernel", ("Param", F32 (kernel l)))]
    [].

Definition CounterLinear_module (m : CounterLinear) : Module_ Tensor :=
  mk_module "CounterLinear" []
    [("count", ("Count", I32 (count m)))]
    [("linear", Linear_module (linear m))].

Fixpoint assoc {A : Type} (k : string) (l : list (string * A)) : option A :=
  match l with
  | [] => None
  | (k', v) :: r => if String.eqb k k' then Some v else assoc k r
  end.

Definition as_int (v : static_value) : option Z :=
  match v with SInt z => Some z | _ => None end.

Definition as_bool (v : static_value) : option bool :=
  match v with SBool b => Some b | _ => None end.

Definition as_tensor (v : string * Array Tensor) : option Tensor :=
  match snd v with F32 t => Some t | I32 _ => None end.

Definition as_scalar (v : string * Array Tensor) : option Z :=
  match snd v with I32 z => Some z | F32 _ => None end.

Definition Linear_of_module (m : Module_ Tensor) : option Linear :=
  match m with
  | mk_module ty sf vs _ =>
      if String.eqb ty "Linear" then
        i ← assoc "in_features" sf ≫= as_int;
        o ← assoc "out_features" sf ≫= as_int;
        u ← assoc "use_bias" sf ≫= as_bool;
        d ← assoc "dtype" sf;
        pd ← assoc "param_dtype" sf;
        pr ← assoc "precision" sf;
        ki ← assoc "kernel_init" sf;
        bi ← assoc "bias_init" sf;
        dg ← assoc "dot_general" sf;
        k ← assoc "kernel" vs ≫= as_tensor;
        b ← assoc "bias" vs ≫= as_tensor;
        Some {| in_features := i; out_features := o; use_bias := u;
                dtype := d; param_dtype := pd; precision := pr;
                kernel_init := ki; bias_init := bi; dot_general := dg;
                kernel := k; bias := b |}
      else None
  end.

Definition CounterLinear_of_module (m : Module_ Tensor)
  : option CounterLinear :=
  match m with
  | mk_module ty _ vs ss =>
      if String.eqb ty "CounterLinear" then
        c ← assoc "count" vs ≫= as_scalar;
        l ← assoc "linear" ss ≫= Linear_of_module;
        Some {| linear := l; count := c |}
      else None
  end.

(** [[
@jax.jit
def forward(static: nnx.GraphDef, state: nnx.State, x: jax.Array):
  model = static.merge(state)
  y = model(x)
  state, _ = model.split()
  return y, state
]]
    for a [static] that describes a [CounterLinear]; [None] when merge fails or
    the call raises. *)
Definition forward (static : GraphDef) (state : gmap string (Array Tensor))
    (x : Tensor) : option (Tensor * gmap string (Array Tensor)) :=
  m ← merge static [state];
  model ← CounterLinear_of_module m;
  let '(model, r) := CounterLinear__call__ model x in
  y ← r;
  Some (y, fst (split (CounterLinear_module model))).

End CounterLinear.

Arguments in_features {Tensor} l.
Arguments kernel {Tensor} l.
Arguments bias {Tensor} l.
Arguments linear {Tensor} c.
Arguments count {Tensor} c.
Arguments CounterLinear__init__ {Tensor Rngs} Linear__init__ din dout rngs.
Arguments CounterLinear__call__ {Tensor} Linear__call__ self x.
Arguments Linear_module {Tensor} l.
Arguments CounterLinear_module {Tensor} m.
Arguments Linear_of_module {Tensor} m.
Arguments CounterLinear_of_module {Tensor} m.
Arguments forward {Tensor} Linear__call__ static state x.

(** ** The statements of the code cells

    The cells, statement by statement; expressions are kept as source text
    (with single quotes for string literals). *)
Inductive stmt :=
| Magic (line : string)
| Import_ (what : string)
| Pass
| Assign (target value : string)
| AugAssign (target op value : string)
| Expr (e : string)
| Return (e : string)
| Def (decorators : list string) (name params : string) (body : list stmt)
| Class (name bases : string) (body : list stmt)
| For (target iter : string) (body : list stmt)
| If_ (cond : string) (body orelse : list stmt)
| Raise (e : string)
| Assert (e : string)
| Try (body handlers finally_ : list stmt).

(** Does a statement raise, assert, or catch? *)
Fixpoint handles_failure (s : stmt) : bool :=
  let any := fix any (l : list stmt) : bool :=
               match l with
               | [] => false
               | x :: r => handles_failure x || any r
               end in
  match s with
  | Def _ _ _ body => any body
  | Class _ _ body => any body
  | For _ _ body => any body
  | If_ _ body orelse => any body || any orelse
  | Raise _ | Assert _ | Try _ _ _ => true
  | _ => false
  end.

(** The functions and methods a cell defines, by name. *)
Fixpoint defined (s : stmt) : list string :=
  let all := fix all (l : list stmt) : list string :=
               match l with
               | [] => []
               | x :: r => (defined x ++ all r)%list
               end in
  match s with
  | Def _ n _ body => n :: all body
  | Class n _ body => List.map (fun m => n ^^ "." ^^ m) (all body)
  | For _ _ body => all body
  | If_ _ body orelse => (all body ++ all orelse)%list
  | _ => []
  end.

Definition cells : list (list stmt) := [
  [ Magic "pip install -U git+https://github.com/google/flax.git";
    Import_ "from functools import partial";
    Import_ "import jax";
    Import_ "from jax import random, numpy as jnp";
    Import_ "from flax.experimental import nnx" ];
  [ Class "Count" "nnx.Variable" [Pass];
    Class "CounterLinear" "nnx.Module" [
      Def [] "__init__" "self, din, dout, *, rngs" [
        Assign "self.linear" "nnx.Linear(din, dout, rngs=rngs)";
        Assign "self.count" "Count(jnp.zeros((), jnp.int32))" ];
      Def [] "__call__" "self, x" [
        AugAssign "self.count" "+=" "1";
        Return "self.linear(x)" ] ];
    Assign "model" "CounterLinear(4, 4, rngs=nnx.Rngs(0))";
    Assign "y" "model(jnp.ones((2, 4)))";
    Expr "print(f'{model = }')" ];
  [ Expr "print(f'{model.count = }')";
    Expr "print(f'{model.linear.kernel = }')" ];
  [ Assign "pretrained_weight" "random.uniform(random.key(0), (4, 4))";
    Assign "model.linear.kernel" "pretrained_weight";
    Assign "y" "model(jnp.ones((2, 4)))";
    Expr "y" ];
  [ Def [] "load_pretrained_fragment" "" [
      Assign "replacement" "nnx.Linear(4, 4, rngs=nnx.Rngs(1))";
      Return "replacement" ];
    Assign "model.linear" "load_pretrained_fragment()";
    Assign "y" "model(jnp.ones((2, 4)))";
    Expr "y" ];
  [ Assign "rngs" "nnx.Rngs(0)";
    Assign "model"
      "nnx.Sequence([nnx.Conv(1, 16, [3, 3], padding='SAME', rngs=rngs), partial(nnx.max_pool, window_shape=(2, 2), strides=(2, 2)), nnx.Conv(16, 32, [3, 3], padding='SAME', rngs=rngs), partial(nnx.max_pool, window_shape=(2, 2), strides=(2, 2)), lambda x: x.reshape((x.shape[0], -1)), nnx.Linear(32 * 7 * 7, 10, rngs=rngs)])";
    Assign "y" "model(jnp.ones((2, 28, 28, 1)))";
    For "i, layer" "enumerate(model)" [
      If_ "isinstance(layer, nnx.Conv)" [
        Assign "model[i]"
          "nnx.Linear(layer.in_features, layer.out_features, rngs=rngs)" ]
        [] ];
    Assign "y" "model(jnp.ones((2, 28, 28, 1)))" ];
  [ Assign "model" "CounterLinear(4, 4, rngs=nnx.Rngs(0))";
    Assign "state, static" "model.split()";
    Expr "print(f'{state = }')";
    Expr "print(f'\n{static = }')" ];
  [ Def ["jax.jit"] "forward"
        "static: nnx.GraphDef, state: nnx.State, x: jax.Array" [
      Assign "model" "static.merge(state)";
      Assign "y" "model(x)";
      Assign "state, _" "model.split()";
      Return "y, state" ];
    Assign "x" "jnp.ones((2, 4))";
    Assign "y, state" "forward(static,state, x)";
    Expr "print(f'{y.shape = }')";
    Expr "print(f'{state['count'] = }')" ];
  [ Class "LinearEnsemble" "nnx.Module" [
      Def [] "__init__" "self, din, dout, *, num_models, rngs: nnx.Rngs" [
        Assign "keys" "rngs.fork(num_models)";
        Def [] "vmap_init" "keys" [
          Return
            "CounterLinear(din, dout, rngs=nnx.Rngs(keys)).split(nnx.Param, Count)" ];
        Assign "params, counts, static"
          "jax.vmap(vmap_init, in_axes=(0,), out_axes=(0, None, None))(keys)";
        Assign "self.models" "static.merge(params, counts)" ];
      Def [] "__call__" "self, x" [
        Assign "params, counts, static" "self.models.split(nnx.Param, Count)";
        Def [] "vmap_apply" "x, params, counts, static" [
          Assign "model" "static.merge(params, counts)";
          Assign "y" "model(x)";
          Assign "params, counts, static" "model.split(nnx.Param, Count)";
          Return "y, params, counts, static" ];
        Assign "y, params, counts, static"
          "jax.vmap(vmap_apply, in_axes=(None, 0, None, None), out_axes=(0, 0, None, None))(x, params, counts, static)";
        Expr "self.models.update(params, counts, static)";
        Return "y" ] ];
    Assign "x" "jnp.ones((4,))";
    Assign "ensemble" "LinearEnsemble(4, 4, num_models=8, rngs=nnx.Rngs(0))";
    Assign "y" "ensemble(x)";
    Expr "print(f'{y.shape = }')";
    Expr "print(f'{ensemble.models.count = }')";
    Expr "print(f'state = {jax.tree_map(jnp.shape, ensemble.get_state())}')" ];
  [ Assign "ScannedLinear"
      "nnx.Scan(nnx.Linear, variable_axes={nnx.Param: 0}, length=4)";
    Assign "scanned" "ScannedLinear(2, 2, rngs=nnx.Rngs(0))";
    Expr "scanned.get_state()" ];
  [ Class "ScannedLinear" "nnx.Module" [
      Def ["partial(nnx.scan, variable_axes={nnx.Param: 0}, length=4)"]
          "__init__" "self, din, dout, *, rngs: nnx.Rngs" [
        Assign "self.model" "nnx.Linear(din, dout, rngs=nnx.Rngs(rngs))" ];
      Def ["partial(nnx.scan, variable_axes={nnx.Param: 0}, length=4)"]
          "__call__" "self, x" [
        Return "self.model(x)" ] ];
    Assign "scanned" "ScannedLinear(2, 2, rngs=nnx.Rngs(0))";
    Expr "scanned.get_state()" ];
  [ Def ["jax.jit"] "f" "m1: nnx.Module, m2: nnx.Module" [
      Return "m1, m2" ] ];
  [ Class "TransposedParam" "nnx.Variable" [
      Def [] "create_value" "self, value" [ Return "value.T" ];
      Def [] "get_value" "self" [ Return "self.value.T" ];
      Def [] "set_value" "self, value" [
        Return "self.replace(value=value.T)" ] ];
    Class "OddLinear" "nnx.Module" [
      Def [] "__init__" "self, din, dout, *, rngs" [
        Assign "self.kernel"
          "TransposedParam(random.uniform(rngs.params(), (din, dout)))";
        Assign "self.bias" "nnx.Param(jnp.zeros((dout,)))" ];
      Def [] "__call__" "self, x" [
        Expr "print(f'{self.kernel.shape = }')";
        Return "x @ self.kernel + self.bias" ] ];
    Assign "model" "OddLinear(4, 8, rngs=nnx.Rngs(0))";
    Assign "y" "model(jnp.ones((2, 4)))";
    Expr "print(f'outer kernel shape = {model.split()[0]['kernel'].shape}')" ];
  [ Class "MetadataParam" "nnx.Param" [
      Def [] "__init__" "self, *args, **kwargs" [
        For "key" "kwargs" [ Expr "setattr(self, key, kwargs[key])" ];
        Expr "super().__init__(*args)" ] ];
    Class "AnnotatedLinear" "nnx.Module" [
      Def [] "__init__" "self, din, dout, *, rngs" [
        Assign "self.kernel"
          "TransposedParam(random.uniform(rngs.params(), (din, dout)), meta='foo', other_meta=0)";
        Assign "self.bias"
          "TransposedParam(jnp.zeros((dout,)), meta='bar', other_meta=1)" ];
      Def [] "__call__" "self, x" [
        Return "x @ self.kernel + self.bias" ] ];
    Assign "model" "AnnotatedLinear(4, 8, rngs=nnx.Rngs(0))";
    Assign "y" "model(jnp.ones((2, 4)))";
    Assign "state, static" "model.split()";
    Expr "print(f'{state.variables['kernel'].meta=}\n{state.variables['kernel'].other_meta=}')";
    Expr "print(f'{state.variables['bias'].meta=}\n{state.variables['bias'].other_meta=}')" ];
  [ Def [] "batched_flatten" "x" [
      Return "jnp.reshape(x, (x.shape[0], -1))" ];
    Class "Example" "nnx.Module" [
      Def [] "__init__"
          "self, *, in_filters=3, out_filters=4, input_shape=None, rngs" [
        Assign "self.encoder"
          "nnx.Conv(in_filters, out_filters, kernel_size=(3, 3), strides=(1, 1), padding='SAME', rngs=rngs)";
        Assign "encoded_shape"
          "jax.eval_shape(lambda x: batched_flatten(self.encoder(x)), jax.ShapeDtypeStruct(input_shape, jnp.float32)).shape";
        Assign "self.linear" "nnx.Linear(encoded_shape[-1], 4, rngs=rngs)" ];
      Def [] "__call__" "self, x" [
        Assign "x" "self.encoder(x)";
        Assign "x" "batched_flatten(x)";
        Return "self.linear(x)" ] ];
    Assign "model"
      "Example(in_filters=3, out_filters=4, input_shape=(2, 6, 6, 3), rngs=nnx.Rngs(0))";
    Assign "state, static" "model.split()";
    Expr "jax.tree_map(jnp.shape, state)" ]
].

Definition operations : list string :=
  flat_map (flat_map defined) cells.

End Notebook.

(** * Concrete instances *)

Module Examples.
Import Nnx Notebook Workflow.

(** A 1x1 layer over integers, enough to run the definitions. *)
Definition toy_linear (k b : Z) : Linear Z :=
  {| Notebook.in_features := 1; out_features := 1; use_bias := true;
     dtype := SNone; param_dtype := SObj "<class 'jax.numpy.float32'>";
     precision := SNone; kernel_init := SObj "<function init>";
     bias_init := SObj "<function zeros>";
     dot_general := SObj "<function dot_general>";
     Notebook.kernel := k; Notebook.bias := b |}.

Definition toy_call (l : Linear Z) (x : Z) : option Z :=
  Some (x * Notebook.kernel l + Notebook.bias l)%Z.

Definition toy_model (c : Z) : CounterLinear Z :=
  {| Notebook.linear := toy_linear 3 1; Notebook.count := c |}.

(** A run in which the four jobs succeed one after the other and [tests] then
    starts. *)
Definition tests_running : run_state :=
  set_status "tests" Running
    (set_status "test-import" Succeeded
       (set_status "test-import" Running
          (set_status "commit-count" Succeeded
             (set_status "commit-count" Running
                (set_status "pre-commit" Succeeded
                   (set_status "pre-commit" Running
                      (set_status "cancel-previous" Succeeded
                         (set_status "cancel-previous" Running
                            all_pending)))))))).

End Examples.

(** * Steps of a job

    The steps of a job run in order.  A step with no [if] runs when every
    step before it succeeded; [if: always()] runs in any case; any other
    condition carries the implicit [success()] ([Workflow.step_runs]).  The
    job succeeds when no step that ran has failed. *)

Module Steps.
Import Shell Workflow.

Inductive outcome :=
| Ran (ok : bool)
| NotRun.

(** [act i s]: whether step [s], the [i]-th of its job, succeeds when it
    runs.  [ok] is [success()]: every step so far succeeded. *)
Fixpoint exec (ctx : string -> string) (act : nat -> step -> bool)
    (i : nat) (ok : bool) (l : list step) : list outcome :=
  match l with
  | [] => []
  | s :: r =>
      if step_runs ctx ok s then
        let good := act i s in
        Ran good :: exec ctx act (S i) (ok && good) r
      else NotRun :: exec ctx act (S i) ok r
  end.

Definition run_job (ctx : string -> string) (act : nat -> step -> bool)
    (j : job) : list outcome :=
  exec ctx act 0 true (steps j).

Definition failed (o : outcome) : bool :=
  match o with
  | Ran false => true
  | _ => false
  end.

Definition job_succeeds (outs : list outcome) : bool :=
  negb (existsb failed outs).

(** A [run] step succeeds when its script ends with status 0 in the world of
    that step; what an action does is given by [uses_ok]. *)
Definition step_ok (w : nat -> world) (env : string -> string)
    (uses_ok : nat -> string -> bool) (ctx : string -> string)
    (i : nat) (s : step) : bool :=
  match does s with
  | Run script => Z.eqb (fst (run_script (w i) (pipefail s) env (script ctx))) 0
  | Uses a _ => uses_ok i a
  end.

(** The [matrix] context of one combination of a job's matrix; the other
    contexts come from [rest]. *)
Definition matrix_context (c : combo) (rest : string -> string)
  : string -> string :=
  fun k =>
    match List.find (fun kv => String.eqb k ("matrix." ^^ fst kv)) c with
    | Some kv => snd kv
    | None => rest k
    end.

(** The script a [run] step runs in a context ([Skip] for an action). *)
Definition script_of (s : step) (ctx : string -> string) : cmd :=
  match does s with
  | Run script => script ctx
  | Uses _ _ => Skip
  end.

End Steps.

(** * What the scripts of the [tests] job are expected to run *)

Module Scripts.
Import Shell Workflow Build.

Definition remove_venv : list string := ["rm"; "-rf"; "venv"].

(** The four commands that build the virtual environment, in order. *)
Definition install_commands : list (list string) :=
  [ ["python3"; "-m"; "venv"; "venv"];
    ["venv/bin/python3"; "-m"; "pip"; "install"; ".[all,testing]"];
    ["venv/bin/python3"; "-m"; "pip"; "install"; "tensorflow_datasets[dev]"];
    ["venv/bin/python3"; "-m"; "pip"; "install"; "-r"; "docs/requirements.txt"] ].

(** The programs the script is to run, given whether [venv] exists. *)
Definition install_plan (venv_exists : bool) : list (list string) :=
  (if venv_exists then [remove_venv] else []) ++ install_commands.

(** Fail-fast execution of a list of programs: each is run after the one
    before it succeeded.  The result is the programs that were run and the
    status of the last of them (0 when there is none to run). *)
Fixpoint until_failure (w : world) (hist : list (list string))
    (plan : list (list string)) : list (list string) * Z :=
  match plan with
  | [] => ([], 0%Z)
  | argv :: rest =>
      let rc := fst (w hist argv "") in
      if Z.eqb rc 0 then
        let '(ran, rc') := until_failure w (hist ++ [argv]) rest in
        (argv :: ran, rc')
      else ([argv], rc)
  end.



End Scripts.

Module ScriptsMore.
Import Shell Workflow Build.


End ScriptsMore.

(** * More concrete instances *)

Module MoreExamples.
Import Shell Workflow Build Steps.

(** A pytest run in which every step succeeds except the test step (the
    eighth, index 7). *)
Definition pytest_context : string -> string :=
  fun k => if String.eqb k "matrix.test-type" then "pytest" else "".

Definition test_step_fails : nat -> step -> bool :=
  fun i _ => negb (Nat.eqb i 7).

(** A run of the [commit-count] job in which checkout succeeds and git
    counts [n] commits. *)
Definition counting_worlds (n : N) : nat -> world :=
  fun _ => world_counting n.

Definition actions_succeed : nat -> string -> bool := fun _ _ => true.

(** A world in which the first program of a script fails with status 128
    and every later one succeeds. *)
Definition fetch_fails : world :=
  fun hist _ _ =>
    match hist with
    | [] => (128%Z, "")
    | _ => (0%Z, "0" ^^ newline)
    end.





(** The [test-import] job fails: the others succeed, [tests] is skipped. *)
Definition import_failed : run_state :=
  set_status "test-import" Failed
    (set_status "test-import" Running all_pending).

Definition tests_skipped : run_state :=
  set_status "tests" Skipped import_failed.

End MoreExamples.


(** * The layers index: the two listings *)

Module LayersIndexMore.
Import LayersIndex.

(** The entries of the [autosummary] blocks with the given [:template:]. *)
Definition summary_of (template : option string) (d : document) : list string :=
  flat_map (fun x =>
              match x with
              | AutoSummary _ t es =>
                  if match template, t with
                     | Some a, Some b => String.eqb a b
                     | None, None => true
                     | _, _ => false
                     end
                  then es else []
              | _ => []
              end)
           (directives d).

Definition class_summary : document -> list string :=
  summary_of (Some "flax_module").

Definition function_summary : document -> list string :=
  summary_of None.

End LayersIndexMore.

(** * The notebook: the cells around the claims' code *)

Module Cells.
Import Nnx Notebook.

Section Calls.

Variable Tensor : Type.
Variable Linear__call__ : Linear Tensor -> Tensor -> option Tensor.

(** [y = model(x)] for each input in turn, on the same object: the object
    after the calls and what each call returned (or [None] where the layer
    raised). *)
Fixpoint calls (self : CounterLinear Tensor) (xs : list Tensor)
  : CounterLinear Tensor * list (option Tensor) :=
  match xs with
  | [] => (self, [])
  | x :: r =>
      let '(self1, y) := CounterLinear__call__ Linear__call__ self x in
      let '(self2, ys) := calls self1 r in
      (self2, y :: ys)
  end.

(** [y, state = forward(static, state, x)] for each input in turn, each call
    taking the state the call before it returned. *)
Fixpoint forward_loop (static : GraphDef) (state : gmap string (Array Tensor))
    (xs : list Tensor) : option (list Tensor * gmap string (Array Tensor)) :=
  match xs with
  | [] => Some ([], state)
  | x :: r =>
      match forward Linear__call__ static state x with
      | Some (y, state1) =>
          match forward_loop static state1 r with
          | Some (ys, state2) => Some (y :: ys, state2)
          | None => None
          end
      | None => None
      end
  end.

(** All the outputs, when no call raised. *)
Fixpoint returned (ys : list (option Tensor)) : option (list Tensor) :=
  match ys with
  | [] => Some []
  | Some y :: r =>
      match returned r with
      | Some l => Some (y :: l)
      | None => None
      end
  | None :: _ => None
  end.

(** The state that [split] returns for the object. *)
Definition state_of (m : CounterLinear Tensor) : gmap string (Array Tensor) :=
  fst (split (CounterLinear_module m)).

Definition static_of (m : CounterLinear Tensor) : GraphDef :=
  snd (split (CounterLinear_module m)).

End Calls.

Arguments returned {Tensor} ys.
Arguments state_of {Tensor} m.
Arguments static_of {Tensor} m.
Arguments calls {Tensor} Linear__call__ self xs.
Arguments forward_loop {Tensor} Linear__call__ static state xs.

(** ** Surgery on a stack of layers

[[
for i, layer in enumerate(model):
  if isinstance(layer, nnx.Conv):
    model[i] = nnx.Linear(layer.in_features, layer.out_features, rngs=rngs)
]] *)
Section Surgery.

Variable Tensor : Type.
Variable Rngs : Type.

Record Conv := {
  conv_in_features : Z;
  conv_out_features : Z;
  conv_kernel_size : list Z;
  conv_padding : string;
  conv_kernel : Tensor;
  conv_bias : Tensor
}.

(** The entries of an [nnx.Sequence]: modules, or plain callables (the
    [partial(...)] and the [lambda] of the notebook). *)
Inductive layer :=
| ConvLayer (c : Conv)
| LinearLayer (l : Linear Tensor)
| Callable (source : string).

Definition is_Conv (x : layer) : bool :=
  match x with ConvLayer _ => true | _ => false end.

(** [nnx.Linear(din, dout, rngs=rngs)]: the initial kernel and bias are drawn
    from [rngs], an object shared by all the constructions, which the drawing
    changes; the other fields are the defaults the notebook prints. *)
Variable draw : Z -> Z -> Rngs -> Tensor * Tensor * Rngs.

Definition new_Linear (din dout : Z) (rngs : Rngs) : Linear Tensor * Rngs :=
  let '(k, b, rngs') := draw din dout rngs in
  ({| Notebook.in_features := din; out_features := dout; use_bias := true;
      dtype := SNone; param_dtype := SObj "<class 'jax.numpy.float32'>";
      precision := SNone;
      kernel_init := SObj "<function variance_scaling.<locals>.init>";
      bias_init := SObj "<function zeros>";
      dot_general := SObj "<function dot_general>";
      Notebook.kernel := k; Notebook.bias := b |}, rngs').

(** The loop, on the list it updates in place: position [i] is read from the
    list as it is then, and the iteration ends when [i] is past its end.
    This is for a stack with at least one layer, like the notebook's; what
    iterating an [nnx.Sequence] with no layer does is not in the notebook. *)
Fixpoint surgery_from (i fuel : nat) (model : list layer) (rngs : Rngs)
  : list layer * Rngs :=
  match fuel with
  | O => (model, rngs)
  | S fuel' =>
      match model !! i with
      | None => (model, rngs)
      | Some (ConvLayer c) =>
          let '(l, rngs') :=
            new_Linear (conv_in_features c) (conv_out_features c) rngs in
          surgery_from (S i) fuel' (<[i := LinearLayer l]> model) rngs'
      | Some _ => surgery_from (S i) fuel' model rngs
      end
  end.

Definition surgery (model : list layer) (rngs : Rngs) : list layer * Rngs :=
  surgery_from 0 (List.length model) model rngs.

(** The same, layer by layer from left to right, without positions. *)
Fixpoint converted (model : list layer) (rngs : Rngs) : list layer * Rngs :=
  match model with
  | [] => ([], rngs)
  | ConvLayer c :: r =>
      let '(l, rngs1) :=
        new_Linear (conv_in_features c) (conv_out_features c) rngs in
      let '(r', rngs2) := converted r rngs1 in
      (LinearLayer l :: r', rngs2)
  | x :: r =>
      let '(r', rngs2) := converted r rngs in
      (x :: r', rngs2)
  end.

(** What the surgery turns one layer into, up to the drawn parameters. *)
Definition replaces (old new : layer) : Prop :=
  match old with
  | ConvLayer c =>
      exists l, new = LinearLayer l /\
                Notebook.in_features l = conv_in_features c /\
                Notebook.out_features _ l = conv_out_features c
  | _ => new = old
  end.

End Surgery.

Arguments ConvLayer {Tensor} c.
Arguments LinearLayer {Tensor} l.
Arguments Callable {Tensor} source.
Arguments is_Conv {Tensor} x.
Arguments new_Linear {Tensor Rngs} draw din dout rngs.
Arguments surgery_from {Tensor Rngs} draw i fuel model rngs.
Arguments surgery {Tensor Rngs} draw model rngs.
Arguments converted {Tensor Rngs} draw model rngs.
Arguments replaces {Tensor} old new.

(** ** Variables with hooks

[[
class TransposedParam(nnx.Variable):
  def create_value(self, value):
    return value.T  # called on variable creation to transform initial value
  def get_value(self):
    return self.value.T  # called when value fetched via module getattr
  def set_value(self, value):
    return self.replace(value=value.T)  # called when setting value from module setattr
]] *)
Section Hooks.

(** The elements of an array. *)
Variable A : Type.

(** An array: its shape and the element at each index. *)
Record NDArray := {
  shape : list nat;
  item : list nat -> A
}.

(** [a.T] reverses the axes. *)
Definition T (a : NDArray) : NDArray :=
  {| shape := rev (shape a); item := fun idx => item a (rev idx) |}.

(** Two arrays with the same shape and the same elements. *)
Definition same (a b : NDArray) : Prop :=
  shape a = shape b /\ forall idx, item a idx = item b idx.

(** The variable classes of the cell: [nnx.Param], which overrides no hook,
    and [TransposedParam]. *)
Inductive variable_class :=
| Param
| TransposedParam.

Record Variable_ := {
  class : variable_class;
  value : NDArray;                       (* the stored value, [self.value] *)
  metadata : list (string * string)      (* keyword arguments: [meta='foo'] *)
}.

Definition create_value (c : variable_class) (v : NDArray) : NDArray :=
  match c with
  | Param => v
  | TransposedParam => T v
  end.

Definition get_value (self : Variable_) : NDArray :=
  match class self with
  | Param => value self
  | TransposedParam => T (value self)
  end.

Definition set_value (self : Variable_) (v : NDArray) : Variable_ :=
  match class self with
  | Param => {| class := class self; value := v; metadata := metadata self |}
  | TransposedParam =>
      {| class := class self; value := T v; metadata := metadata self |}
  end.

(** [TransposedParam(v, meta=...)]: creation goes through [create_value]. *)
Definition new_variable (c : variable_class) (v : NDArray)
    (meta : list (string * string)) : Variable_ :=
  {| class := c; value := create_value c v; metadata := meta |}.

(** [[
class OddLinear(nnx.Module):
  def __init__(self, din, dout, *, rngs):
    self.kernel = TransposedParam(random.uniform(rngs.params(), (din, dout)))
    self.bias = nnx.Param(jnp.zeros((dout,)))
]] *)
Record OddLinear := {
  odd_kernel : Variable_;
  odd_bias : Variable_
}.

Variable Rngs : Type.
(** The elements [random.uniform] draws, and zero. *)
Variable uniform : Rngs -> list nat -> A.
Variable zero : A.

Definition OddLinear__init__ (din dout : nat) (rngs : Rngs) : OddLinear :=
  {| odd_kernel :=
       new_variable TransposedParam
         {| shape := [din; dout]; item := uniform rngs |} [];
     odd_bias :=
       new_variable Param {| shape := [dout]; item := fun _ => zero |} [] |}.

(** [self.kernel], [self.bias]: attribute access goes through [get_value].
    (Assignment to an attribute is not modelled: what the module does with
    the variable that [set_value] returns is not in the notebook.) *)
Definition OddLinear_kernel (self : OddLinear) : NDArray :=
  get_value (odd_kernel self).

Definition OddLinear_bias (self : OddLinear) : NDArray :=
  get_value (odd_bias self).

(** [model.split()[0]]: the state holds the stored values. *)
Definition OddLinear_state (self : OddLinear) : list (string * NDArray) :=
  [("bias", value (odd_bias self)); ("kernel", value (odd_kernel self))].

End Hooks.

Arguments shape {A} n.
Arguments item {A} n idx.
Arguments T {A} a.
Arguments same {A} a b.
Arguments class {A} v.
Arguments value {A} v.
Arguments metadata {A} v.
Arguments create_value {A} c v.
Arguments get_value {A} self.
Arguments set_value {A} self v.
Arguments new_variable {A} c v meta.
Arguments odd_kernel {A} o.
Arguments odd_bias {A} o.
Arguments OddLinear__init__ {A Rngs} uniform zero din dout rngs.
Arguments OddLinear_kernel {A} self.
Arguments OddLinear_bias {A} self.
Arguments OddLinear_state {A} self.

End Cells.

Module CellExamples.
Import Nnx Notebook Cells Examples.

(** Parameters drawn from a counter: the kernel is the counter, the bias its
    successor, and two numbers are used up. *)
Definition counter_draw (din dout : Z) (n : nat) : Z * Z * nat :=
  (Z.of_nat n, Z.of_nat (S n), S (S n)).

Definition toy_conv (i o : Z) : Conv Z :=
  {| conv_in_features := i; conv_out_features := o;
     conv_kernel_size := [3; 3]%Z; conv_padding := "SAME";
     conv_kernel := 0%Z; conv_bias := 0%Z |}.

(** The stack of the notebook. *)
Definition notebook_stack : list (layer Z) :=
  [ ConvLayer (toy_conv 1 16);
    Callable "partial(nnx.max_pool, window_shape=(2, 2), strides=(2, 2))";
    ConvLayer (toy_conv 16 32);
    Callable "partial(nnx.max_pool, window_shape=(2, 2), strides=(2, 2))";
    Callable "lambda x: x.reshape((x.shape[0], -1))";
    LinearLayer (fst (new_Linear counter_draw (32 * 7 * 7) 10 4)) ].

(** The state of [toy_model 0], in the two parts a split by variable type
    gives. *)
Definition toy_counts : gmap string (Array Z) :=
  {[ "count" := I32 0 ]}.

Definition toy_params : gmap string (Array Z) :=
  {[ "linear/bias" := F32 1%Z; "linear/kernel" := F32 3%Z ]}.

End CellExamples.

(** * Properties *)

(** ** Strings and lists *)

Lemma str_in_In (s : string) (l : list string) :
  str_in s l = true <-> In s l.
Proof.
  unfold str_in. rewrite existsb_exists. split.
  - intros (y & Hy & E). apply String.eqb_eq in E. now subst.
  - intros H. exists s. split; [exact H | apply String.eqb_refl].
Qed.

Lemma str_in_false (s : string) (l : list string) :
  str_in s l = false <-> ~ In s l.
Proof.
  rewrite <- str_in_In. destruct (str_in s l); split; congruence.
Qed.

(** ** The layers index *)

Section LayersIndexFacts.
Import LayersIndex.

(** A listing is consistent exactly when nothing is left unlisted. *)
Lemma unlisted_classes_nil (d : document) :
  unlisted_classes d = [] <->
  forall c, In c (flax_module_classes d) -> In c (autosummary_entries d).
Proof.
  unfold unlisted_classes.
  induction (flax_module_classes d) as [|c cs IH]; simpl.
  - split; [intros _ c [] | reflexivity].
  - destruct (str_in c (autosummary_entries d)) eqn:E; simpl.
    + rewrite IH. apply str_in_In in E. split.
      * intros H x [<- | Hx]; [exact E | now apply H].
      * intros H x Hx. apply H. now right.
    + split; [discriminate |].
      intros H. apply str_in_false in E. destruct E. apply H. now left.
Qed.

(** Every function documented with [autofunction] is listed: the sibling
    listing is complete. *)
Lemma layers_functions_listed :
  forall f, In f (autofunctions layers) -> In f (autosummary_entries layers).
Proof.
  intros f Hf. apply str_in_In.
  vm_compute in Hf. repeat (destruct Hf as [<- | Hf]; [reflexivity |]).
  destruct Hf.
Qed.

(** C7: the index documents 26 layer classes with [flax_module], and its
    autosummary listings leave exactly three of them out: [InstanceNorm],
    [MGUCell] and [BatchApply].  So it is not true that every documented class
    appears in the autosummary. *)
Theorem layers_unlisted_classes :
  unlisted_classes layers = ["InstanceNorm"; "MGUCell"; "BatchApply"] /\
  In "InstanceNorm" (flax_module_classes layers) /\
  ~ In "InstanceNorm" (autosummary_entries layers) /\
  ~ (forall c, In c (flax_module_classes layers) ->
               In c (autosummary_entries layers)).
Proof.
  assert (U : unlisted_classes layers = ["InstanceNorm"; "MGUCell"; "BatchApply"])
    by (vm_compute; reflexivity).
  split; [exact U |].
  split; [apply str_in_In; reflexivity |].
  split; [apply str_in_false; reflexivity |].
  intros H. apply unlisted_classes_nil in H. rewrite U in H. discriminate.
Qed.

End LayersIndexFacts.

(** ** Branch filters *)

Section GlobFacts.
Import Workflow.

Lemma glob_literal (c : ascii) (p s : string) :
  Ascii.eqb c "*" = false ->
  glob (String c p) s = true <-> exists s', s = String c s' /\ glob p s' = true.
Proof.
  intros Hc. simpl. rewrite Hc. destruct s as [|d s'].
  - split; [discriminate | intros (x & E & _); discriminate].
  - rewrite andb_true_iff, Ascii.eqb_eq. split.
    + intros [-> H]. eauto.
    + intros (x & E & H). injection E as <- <-. auto.
Qed.

Lemma glob_empty (s : string) : glob "" s = true <-> s = "".
Proof. destruct s; simpl; split; congruence. Qed.

(** A final [*] matches exactly the strings without [/]. *)
Lemma glob_star (s : string) : glob "*" s = true <-> slash_free s = true.
Proof.
  cbn -[Ascii.eqb]. induction s as [|d s IH]; simpl.
  - tauto.
  - destruct (Ascii.eqb d "/"); simpl; [split; discriminate | exact IH].
Qed.

(** ['test_*'] matches the branches that start with [test_] and go on without
    a [/]. *)
Lemma glob_test_star (b : string) :
  glob "test_*" b = true <->
  exists r, b = "test_" ^^ r /\ slash_free r = true.
Proof.
  split.
  - intros H.
    do 5 (apply glob_literal in H; [| reflexivity]; destruct H as (? & -> & H)).
    apply glob_star in H. eauto.
  - intros (r & -> & H). apply glob_star in H.
    do 5 (apply glob_literal; [reflexivity |]; eexists; split; [reflexivity |]).
    exact H.
Qed.

Lemma glob_main (b : string) : glob "main" b = true <-> b = "main".
Proof.
  split.
  - intros H.
    do 4 (apply glob_literal in H; [| reflexivity]; destruct H as (? & -> & H)).
    apply glob_empty in H. now subst.
  - intros ->. reflexivity.
Qed.

End GlobFacts.

(** ** Triggers of the Build workflow *)

Section TriggerFacts.
Import Workflow Build.

(** A push to a branch, with the pattern spelled out. *)
Lemma triggers_on_push_to (b : string) (base : option string) :
  triggers build {| event_name := "push"; ref := Branch b; base_ref := base |}
  = true <->
  b = "main" \/ exists r, b = "test_" ^^ r /\ slash_free r = true.
Proof.
  rewrite <- glob_test_star, <- glob_main.
  unfold triggers, trigger_matches, filtered_branch. cbn -[glob].
  rewrite !orb_false_r, orb_true_iff. reflexivity.
Qed.

(** A pushed tag does not trigger the workflow. *)
Lemma triggers_on_tag (t : string) (base : option string) :
  triggers build {| event_name := "push"; ref := Tag t; base_ref := base |}
  = false.
Proof. reflexivity. Qed.

(** C4: the workflow runs on a push to [main] or to a branch matching
    ['test_*'], on a pull request targeting [main], and on no other event (a
    pushed tag, or any other event name, does not trigger it). *)
Theorem build_triggers (ev : event) :
  triggers build ev = true <->
  (event_name ev = "push" /\
   exists b, ref ev = Branch b /\ (b = "main" \/ glob "test_*" b = true)) \/
  (event_name ev = "pull_request" /\ base_ref ev = Some "main").
Proof.
  destruct ev as [n r base]. unfold triggers, trigger_matches, filtered_branch.
  cbn [build on existsb on_event branches event_name ref base_ref].
  rewrite !orb_false_r.
  destruct (String.eqb_spec "push" n) as [<- | Hpush];
    [| destruct (String.eqb_spec "pull_request" n) as [<- | Hpr]].
  - (* push *)
    cbn [String.eqb Ascii.eqb Bool.eqb andb orb]. rewrite orb_false_r. split.
    + intros H. left. split; [reflexivity |].
      destruct r as [b | t | k]; try discriminate H.
      exists b. split; [reflexivity |].
      rewrite orb_false_r in H.
      apply orb_true_iff in H. destruct H as [H | H]; [left | now right].
      now apply glob_main.
    + intros [[_ (b & -> & [-> | H])] | [E _]]; try discriminate E.
      * reflexivity.
      * rewrite H, orb_true_r. reflexivity.
  - (* pull_request *)
    rewrite String.eqb_refl. cbn [andb orb]. split.
    + intros H. right. split; [reflexivity |].
      destruct base as [b |]; [| discriminate H].
      rewrite orb_false_r in H. apply glob_main in H. now subst.
    + intros [[E _] | [_ ->]]; [discriminate E | reflexivity].
  - (* any other event *)
    cbn [andb orb]. split; [discriminate |].
    intros [[E _] | [E _]]; congruence.
Qed.

End TriggerFacts.

(** ** The [cancel-previous] job *)

Section CancelFacts.
Import Workflow Build.

Lemma lower_app_literal (a b : string) : lower (a ^^ b) = lower a ^^ lower b.
Proof. induction a as [|c a IH]; simpl; [reflexivity | now rewrite IH]. Qed.

(** No ref that the platform hands out compares equal to ['refs/head/main'],
    with or without case. *)
Lemma ref_name_never_head_main (r : git_ref) :
  eqb_ci (ref_name r) "refs/head/main" = false.
Proof.
  unfold eqb_ci. destruct r as [b | t | n]; unfold ref_name;
    rewrite lower_app_literal; reflexivity.
Qed.

Lemma ref_name_not_head_main (r : git_ref) :
  ref_name r <> "refs/head/main".
Proof.
  intros E. pose proof (ref_name_never_head_main r) as H.
  rewrite E in H. discriminate H.
Qed.

(** On any text at all, the condition holds unless the text is the literal, up
    to case. *)
Lemma cancel_condition (s : string) (ctx : string -> string) :
  ctx "github.ref" = s ->
  step_runs ctx true cancel_step = true <-> lower s <> "refs/head/main".
Proof.
  intros <-. unfold step_runs. cbn [cancel_step if_ eval andb].
  unfold eqb_ci. change (lower "refs/head/main") with "refs/head/main".
  destruct (String.eqb_spec (lower (ctx "github.ref")) "refs/head/main");
    cbn; split; congruence.
Qed.

(** C9: the cancel step, the first step of its job, runs exactly when
    [github.ref] differs from ['refs/head/main'] (the platform compares
    without case): it runs on every other text and does not run on that one.
    No ref the platform hands out is that text, so the step runs on every
    event; the ref of a push to [main] is ['refs/heads/main'], and the step
    runs for pushes to [main] too. *)
Theorem cancel_step_runs (s : string) (ev : event) (rest : string -> string) :
  (step_runs (with_ref s rest) true cancel_step = true <->
   lower s <> "refs/head/main") /\
  step_runs (with_ref "refs/head/main" rest) true cancel_step = false /\
  step_runs (with_ref "refs/heads/main" rest) true cancel_step = true /\
  (step_runs (github ev rest) true cancel_step = true <->
   ref_name (ref ev) <> "refs/head/main") /\
  ref_name (Branch "main") = "refs/heads/main" /\
  step_runs
    (github {| event_name := "push"; ref := Branch "main";
               base_ref := base_ref ev |} rest)
    true cancel_step = true.
Proof.
  assert (R : forall e, step_runs (github e rest) true cancel_step = true).
  { intros e. unfold step_runs. cbn [cancel_step if_ eval andb].
    change (github e rest "github.ref") with (ref_name (ref e)).
    now rewrite ref_name_never_head_main. }
  split; [| split; [| split; [| split; [| split]]]].
  - apply cancel_condition. reflexivity.
  - reflexivity.
  - reflexivity.
  - split; [intros _; apply ref_name_not_head_main | intros _; apply R].
  - reflexivity.
  - apply R.
Qed.

End CancelFacts.

(** ** Jobs and matrices of the Build workflow *)

Section MatrixFacts.
Import Workflow Build.

Lemma expand_spec (m : matrix) (c : combo) :
  In c (expand m) <->
  In c (product (axes m)) /\
  forall e, In e (exclude m) -> excluded_by c e = false.
Proof.
  unfold expand. rewrite filter_In, negb_true_iff.
  split; intros [H1 H2]; (split; [exact H1 |]).
  - intros e He. destruct (excluded_by c e) eqn:E; [| reflexivity].
    assert (X : existsb (excluded_by c) (exclude m) = true)
      by (apply existsb_exists; eauto).
    congruence.
  - destruct (existsb (excluded_by c) (exclude m)) eqn:E; [| reflexivity].
    apply existsb_exists in E. destruct E as (e & He & E).
    rewrite (H2 e He) in E. discriminate.
Qed.

(** The nine combinations the [tests] job runs. *)
Lemma tests_job_matrix :
  job_matrix tests =
  [ [("python-version", "3.9"); ("test-type", "doctest")];
    [("python-version", "3.9"); ("test-type", "pytest")];
    [("python-version", "3.9"); ("test-type", "pytype")];
    [("python-version", "3.9"); ("test-type", "mypy")];
    [("python-version", "3.10"); ("test-type", "doctest")];
    [("python-version", "3.10"); ("test-type", "pytest")];
    [("python-version", "3.10"); ("test-type", "mypy")];
    [("python-version", "3.11"); ("test-type", "doctest")];
    [("python-version", "3.11"); ("test-type", "pytest")] ].
Proof. vm_compute. reflexivity. Qed.

(** C3, as stated, fails: the matrix has no pytype run for Python 3.11. *)
Lemma tests_matrix_no_pytype_3_11 :
  In "3.11" python_versions /\ In "pytype" test_types /\
  ~ In [("python-version", "3.11"); ("test-type", "pytype")]
       (job_matrix tests).
Proof.
  split; [simpl; tauto |]. split; [simpl; tauto |].
  rewrite tests_job_matrix. simpl. intros H.
  repeat (destruct H as [H | H]; [discriminate H |]). exact H.
Qed.

(** C3, amended: the workflow has the five jobs [cancel-previous],
    [pre-commit], [commit-count], [test-import] (one run per Python version)
    and [tests]; the matrix of [tests] has a doctest and a pytest run for each
    of Python 3.9, 3.10 and 3.11, a mypy run for 3.9 and 3.10 only, and a
    pytype run for 3.9 only. *)
Theorem build_jobs_and_matrix :
  List.map id (jobs build) =
    ["cancel-previous"; "pre-commit"; "commit-count"; "test-import"; "tests"] /\
  job_matrix test_import =
    [[("python-version", "3.9")]; [("python-version", "3.10")];
     [("python-version", "3.11")]] /\
  forall v t,
    In [("python-version", v); ("test-type", t)] (job_matrix tests) <->
    In v python_versions /\ In t test_types /\
    (t = "pytype" -> v = "3.9") /\ (t = "mypy" -> v <> "3.11").
Proof.
  split; [reflexivity |]. split; [reflexivity |].
  intros v t. rewrite tests_job_matrix. split.
  - intros H. simpl in H.
    repeat (destruct H as [H | H];
            [injection H as <- <-; simpl;
             repeat split; auto 10; intros; congruence |]).
    destruct H.
  - intros (Hv & Ht & Hpytype & Hmypy). simpl in Hv, Ht.
    destruct Hv as [<- | [<- | [<- | []]]];
      destruct Ht as [<- | [<- | [<- | [<- | []]]]]; simpl; auto 12;
      try (specialize (Hpytype eq_refl); discriminate Hpytype);
      exfalso; apply Hmypy; reflexivity.
Qed.

End MatrixFacts.

(** ** Scheduling: [needs] *)

Section SchedulerFacts.
Import Workflow.

Variable w : workflow.
Hypothesis unique_ids : List.NoDup (List.map id (jobs w)).

Lemma jstatus_eqb_eq (a b : jstatus) : jstatus_eqb a b = true <-> a = b.
Proof. destruct a, b; simpl; split; congruence. Qed.

Lemma set_status_same (j : string) (s : jstatus) (st : run_state) :
  set_status j s st j = s.
Proof. unfold set_status. now rewrite String.eqb_refl. Qed.

Lemma set_status_other (j k : string) (s : jstatus) (st : run_state) :
  k <> j -> set_status j s st k = st k.
Proof.
  intros H. unfold set_status.
  destruct (String.eqb_spec k j); [contradiction | reflexivity].
Qed.

Lemma can_start_needs (st : run_state) (j : job) :
  can_start st j = true ->
  st (id j) = Pending /\ forall n, In n (needs j) -> st n = Succeeded.
Proof.
  unfold can_start. rewrite andb_true_iff, jstatus_eqb_eq, forallb_forall.
  intros [H1 H2]. split; [exact H1 |].
  intros n Hn. now apply jstatus_eqb_eq, H2.
Qed.

(** A step only changes a job that has not finished: success is final. *)
Lemma sched_keeps_success (st st' : run_state) (n : string) :
  sched w st st' -> st n = Succeeded -> st' n = Succeeded.
Proof.
  intros Hs Hn.
  assert (K : forall j s, st (id j) <> Succeeded ->
                          set_status (id j) s st n = Succeeded).
  { intros j s Hj. rewrite set_status_other; [exact Hn |].
    intros ->. contradiction. }
  destruct Hs as [st j _ Hc | st j ok _ Hr | st j _ Hk | st j _ Hc]; apply K.
  - apply can_start_needs in Hc. destruct Hc as [-> _]. discriminate.
  - rewrite Hr. discriminate.
  - unfold must_skip in Hk. apply andb_true_iff in Hk. destruct Hk as [Hk _].
    apply jstatus_eqb_eq in Hk. rewrite Hk. discriminate.
  - intros E. rewrite E in Hc. discriminate.
Qed.

Lemma same_id_same_job (j j' : job) :
  In j (jobs w) -> In j' (jobs w) -> id j = id j' -> j = j'.
Proof using unique_ids.
  clear -unique_ids. revert unique_ids.
  induction (jobs w) as [|x l IH]; simpl; [tauto |].
  intros Hnd Hj Hj' E. apply List.NoDup_cons_iff in Hnd. destruct Hnd as [Hx Hnd].
  destruct Hj as [<- | Hj], Hj' as [<- | Hj']; auto.
  - destruct Hx. rewrite E. now apply in_map.
  - destruct Hx. rewrite <- E. now apply in_map.
Qed.

(** In every state a run can reach, a job that has started (is running, or
    finished by running) has all the jobs it needs succeeded. *)
Lemma started_after_needs (st : run_state) :
  reachable w st ->
  forall j, In j (jobs w) -> started (st (id j)) = true ->
  forall n, In n (needs j) -> st n = Succeeded.
Proof using unique_ids.
  induction 1 as [| st st' Hr IH Hs]; intros j Hj Hst n Hn.
  - discriminate Hst.
  - destruct (started (st (id j))) eqn:Hold.
    + eapply sched_keeps_success; eauto.
    + (* the step is the one that starts [j] *)
      assert (Hs' := Hs).
      destruct Hs as [st j' Hj' Hc | st j' ok Hj' Hrun | st j' Hj' Hk
                     | st j' Hj' Hc];
        (destruct (String.eqb_spec (id j) (id j')) as [E | E];
         [| rewrite set_status_other in Hst by exact E; congruence]).
      * assert (j = j') by (now apply same_id_same_job). subst j'.
        apply can_start_needs in Hc. destruct Hc as [_ Hc].
        eapply sched_keeps_success; eauto.
      * rewrite E, Hrun in Hold. discriminate.
      * rewrite E, set_status_same in Hst. discriminate.
      * rewrite E, set_status_same in Hst. discriminate.
Qed.

End SchedulerFacts.

Section BuildSchedule.
Import Workflow Build Examples.

Lemma build_unique_ids : List.NoDup (List.map id (jobs build)).
Proof.
  cbn. repeat (apply List.NoDup_cons_iff; split;
               [cbn; intros H;
                repeat (destruct H as [H | H]; [discriminate H |]); exact H |]).
  apply List.NoDup_nil.
Qed.

(** C6: in every state a run of the workflow can reach, if the [tests] job has
    started then [cancel-previous], [pre-commit], [commit-count] and
    [test-import] have all completed (and succeeded). *)
Theorem tests_start_after_needs (st : run_state) :
  reachable build st ->
  started (st "tests") = true ->
  forall n,
    In n ["cancel-previous"; "pre-commit"; "commit-count"; "test-import"] ->
    completed (st n) = true /\ st n = Succeeded.
Proof.
  intros Hr Hs n Hn.
  assert (E : st n = Succeeded).
  { apply (started_after_needs build build_unique_ids st Hr tests).
    - simpl. tauto.
    - exact Hs.
    - exact Hn. }
  rewrite E. split; reflexivity.
Qed.

Lemma tests_running_reachable : reachable build tests_running.
Proof.
  unfold tests_running.
  eapply reach_step; [| apply (sched_start build _ tests);
                        [simpl; tauto | reflexivity]].
  eapply reach_step; [| apply (sched_finish build _ test_import true);
                        [simpl; tauto | reflexivity]].
  eapply reach_step; [| apply (sched_start build _ test_import);
                        [simpl; tauto | reflexivity]].
  eapply reach_step; [| apply (sched_finish build _ commit_count true);
                        [simpl; tauto | reflexivity]].
  eapply reach_step; [| apply (sched_start build _ commit_count);
                        [simpl; tauto | reflexivity]].
  eapply reach_step; [| apply (sched_finish build _ pre_commit true);
                        [simpl; tauto | reflexivity]].
  eapply reach_step; [| apply (sched_start build _ pre_commit);
                        [simpl; tauto | reflexivity]].
  eapply reach_step; [| apply (sched_finish build _ cancel_previous true);
                        [simpl; tauto | reflexivity]].
  eapply reach_step; [| apply (sched_start build _ cancel_previous);
                        [simpl; tauto | reflexivity]].
  apply reach_init.
Defined.

Lemma tests_start_after_needs_witness :
  completed (tests_running "commit-count") = true /\
  tests_running "commit-count" = Succeeded.
Proof.
  apply (tests_start_after_needs tests_running tests_running_reachable).
  - reflexivity.
  - simpl. tauto.
Defined.

(** While one of the needed jobs is still running, [tests] cannot start. *)
Lemma tests_cannot_start_early (st : run_state) (n : string) :
  In n (needs tests) -> st n <> Succeeded -> can_start st tests = false.
Proof.
  intros Hn Hne. destruct (can_start st tests) eqn:E; [| reflexivity].
  apply can_start_needs in E. destruct E as [_ E]. destruct Hne. now apply E.
Qed.

End BuildSchedule.

(** ** The bash scripts *)

Section ShellFacts.
Import Shell.

Lemma chomp_cons (c : ascii) (r : string) :
  chomp (String c r) =
  match chomp r with
  | EmptyString =>
      if Ascii.eqb c (ascii_of_nat 10) then EmptyString else String c EmptyString
  | r' => String c r'
  end.
Proof. reflexivity. Qed.

Lemma chomp_line (s : string) :
  no_newline s = true -> chomp (s ^^ newline) = s.
Proof.
  induction s as [|c r IH]; [reflexivity |].
  intros H. cbn [no_newline] in H.
  apply andb_true_iff in H. destruct H as [Hc Hr].
  change (String c r ^^ newline) with (String c (r ^^ newline)).
  rewrite chomp_cons, (IH Hr). apply negb_true_iff in Hc. rewrite Hc.
  destruct r; reflexivity.
Qed.

Lemma string_of_uint_no_newline (d : Decimal.uint) :
  no_newline (NilEmpty.string_of_uint d) = true.
Proof. induction d; simpl; auto. Qed.

Lemma string_of_uint_empty (d : Decimal.uint) :
  NilEmpty.string_of_uint d = "" -> d = Decimal.Nil.
Proof. destruct d; simpl; congruence. Qed.

Lemma to_uint_nonnil (n : N) : N.to_uint n <> Decimal.Nil.
Proof.
  destruct n as [|p]; [discriminate |]. apply DecimalPos.Unsigned.to_uint_nonnil.
Qed.

Lemma int64_small (z : Z) :
  (- 2 ^ 63 <= z < 2 ^ 63)%Z -> int64 z = z.
Proof.
  intros H. unfold int64.
  rewrite Z.mod_small by lia. lia.
Qed.

(** The numeral that git prints reads back as the number. *)
Lemma arith_value_decimal (n : N) :
  (n < 2 ^ 63)%N ->
  arith_value (chomp (decimal_N n ^^ newline)) = Some (Z.of_N n).
Proof.
  intros Hn. unfold decimal_N.
  rewrite chomp_line by apply string_of_uint_no_newline.
  unfold arith_value. rewrite NilEmpty.usu.
  destruct (String.eqb_spec (NilEmpty.string_of_uint (N.to_uint n)) "") as [E|_].
  - apply string_of_uint_empty in E. now apply to_uint_nonnil in E.
  - rewrite DecimalN.Unsigned.of_to, int64_small; [reflexivity |].
    change (2 ^ 63)%Z with (Z.of_N (2 ^ 63)). lia.
Qed.

End ShellFacts.

(** ** The [commit-count] job *)

Section CommitCountFacts.
Import Shell Workflow Build.

Lemma append_empty_r (s : string) : s ^^ "" = s.
Proof. induction s as [|c r IH]; simpl; [reflexivity | now rewrite IH]. Qed.

(** The script, run where git reports [n] commits: its status and what it
    prints. *)
Lemma commit_count_run (w : world) (env : string -> string) (n : N) :
  git_reports w env n -> (n < 2 ^ 63)%N ->
  let '(rc, st) := run_script w true env commit_count_script in
  rc = (if (6 <? Z.of_N n)%Z then 1%Z else 0%Z) /\
  trace st = [fetch_ref env; fetch_main; rev_list] /\
  stdout st =
    if (6 <? Z.of_N n)%Z then
      ["ERROR! More than 5 commits in PR -- please squash your commits."
         ^^ newline;
       "See https://flax.readthedocs.io/en/latest/contributing.html#too-many-commits-in-a-pull-request for help on how to resolve this."
         ^^ newline]
    else [].
Proof.
  intros (H1 & H2 & H3) Hn.
  unfold run_script, commit_count_script, fetch_ref, fetch_main, rev_list in *.
  cbn.
  destruct (w [] _ "") as [rc1 o1] eqn:E1. cbn in H1. subst rc1. cbn.
  destruct (w [_] _ "") as [rc2 o2] eqn:E2. cbn in H2. subst rc2. cbn.
  rewrite H3. cbn. rewrite !append_empty_r.
  fold (decimal_N n ^^ newline). rewrite (arith_value_decimal n Hn).
  destruct (6 <? Z.of_N n)%Z; cbn; auto.
Qed.

(** C8: where git reports the count, the commit-count step ends with status 1
    exactly when the count exceeds 6, and with status 0 when the count is 6 or
    fewer; the message it prints before failing still speaks of 5 commits. *)
Theorem commit_count_exit (w : world) (env : string -> string) (n : N) :
  git_reports w env n -> (n < 2 ^ 63)%N ->
  let run := run_script w (pipefail commit_count_step) env commit_count_script in
  (fst run = 1%Z <-> (6 < n)%N) /\
  (fst run = 0%Z <-> (n <= 6)%N) /\
  ((6 < n)%N ->
   head (stdout (snd run)) =
   Some ("ERROR! More than 5 commits in PR -- please squash your commits."
           ^^ newline)).
Proof.
  intros Hg Hn. pose proof (commit_count_run w env n Hg Hn) as H.
  change (pipefail commit_count_step) with true. cbv zeta.
  destruct (run_script w true env commit_count_script) as [rc st].
  destruct H as (-> & _ & Hout). cbn [fst snd]. rewrite Hout.
  destruct (Z.ltb_spec 6 (Z.of_N n)) as [L | L].
  - repeat split; intros; try lia; try reflexivity.
  - repeat split; intros; try lia; try discriminate.
Qed.

Lemma commit_count_exit_witness :
  fst (run_script (world_counting 7) true (fun _ => "") commit_count_script)
  = 1%Z <-> (6 < 7)%N.
Proof.
  apply (commit_count_exit (world_counting 7) (fun _ => "") 7%N).
  - repeat split; reflexivity.
  - reflexivity.
Defined.

End CommitCountFacts.

(** ** The test step of the [tests] job *)

Section TestsStepFacts.
Import Shell Workflow Build.

Lemma status_errexit (rc : Z) : status (errexit rc) = rc.
Proof. unfold errexit. destruct (Z.eqb_spec rc 0); simpl; congruence. Qed.

Lemma pasted_plain (t : string) : plain t = true -> pasted t = Some [Lit t].
Proof. intros H. unfold pasted. now rewrite H. Qed.

(** C5: where the pasted test type is plain text (it has none of the
    characters that bash expands between double quotes), the step does this:
    for each of the test types doctest, pytest, pytype and mypy it runs
    exactly one program, [tests/run_all_tests.sh] with the [--no-] flags of
    the three other types, [--with-cov] for pytest only, and [--use-venv],
    and ends with that program's status; for any other plain test type it
    runs no program and exits with status 1. *)
Theorem tests_step_invokes_runner (w : world) (env : string -> string)
    (t : string) :
  plain t = true ->
  let run := run_script w (pipefail tests_step) env (tests_script t) in
  if str_in t test_types
  then trace (snd run) = [runner_argv t] /\
       fst run = fst (w [] (runner_argv t) "")
  else trace (snd run) = [] /\ fst run = 1%Z.
Proof.
  intros Hplain.
  change (pipefail tests_step) with false. cbv zeta.
  unfold run_script, tests_script, str_in, test_types.
  rewrite (pasted_plain t Hplain).
  change (default [Lit t] (Some [Lit t])) with [Lit t]. unfold tests_script_on.
  cbn [run eval_test expand_word existsb]. rewrite !append_empty_r.
  destruct (String.eqb_spec t "doctest") as [-> | H1].
  { cbn. destruct (w [] _ "") as [rc o]. cbn. now rewrite status_errexit. }
  destruct (String.eqb_spec t "pytest") as [-> | H2].
  { cbn. destruct (w [] _ "") as [rc o]. cbn. now rewrite status_errexit. }
  destruct (String.eqb_spec t "pytype") as [-> | H3].
  { cbn. destruct (w [] _ "") as [rc o]. cbn. now rewrite status_errexit. }
  destruct (String.eqb_spec t "mypy") as [-> | H4].
  { cbn. destruct (w [] _ "") as [rc o]. cbn. now rewrite status_errexit. }
  cbn. split; reflexivity.
Qed.

Lemma tests_step_invokes_runner_witness :
  trace (snd (run_script (world_counting 0) false (fun _ => "")
                         (tests_script "lint"))) = [] /\
  fst (run_script (world_counting 0) false (fun _ => "") (tests_script "lint"))
  = 1%Z.
Proof.
  exact (tests_step_invokes_runner (world_counting 0) (fun _ => "") "lint"
           eq_refl).
Defined.

(** C5, as stated for any test type outside the four, fails: the value
    [$(echo doctest)] is none of the four, yet bash expands it where it is
    pasted, the first comparison holds, and the step runs the doctest runner
    and ends with its status, 0 here. *)
Lemma tests_step_pasted_command :
  str_in "$(echo doctest)" test_types = false /\
  trace (snd (run_script (world_counting 0) (pipefail tests_step) (fun _ => "")
                         (tests_script "$(echo doctest)")))
  = [runner_argv "doctest"] /\
  fst (run_script (world_counting 0) (pipefail tests_step) (fun _ => "")
                  (tests_script "$(echo doctest)")) = 0%Z.
Proof. vm_compute. repeat split; reflexivity. Qed.

(** The other scripts of the job, run in a world where every program
    succeeds: the programs they start, in order. *)
Example install_dependencies_trace :
  trace (snd (run_script (world_counting 0) false (fun _ => "")
                         install_dependencies_script)) =
  [ ["rm"; "-rf"; "venv"];
    ["python3"; "-m"; "venv"; "venv"];
    ["venv/bin/python3"; "-m"; "pip"; "install"; ".[all,testing]"];
    ["venv/bin/python3"; "-m"; "pip"; "install"; "tensorflow_datasets[dev]"];
    ["venv/bin/python3"; "-m"; "pip"; "install"; "-r"; "docs/requirements.txt"] ].
Proof. vm_compute. reflexivity. Qed.

Example date_key_written :
  let run := run_script (fun _ _ _ => (0%Z, "307" ^^ newline)) false
               (fun x => if String.eqb x "GITHUB_OUTPUT" then "/tmp/out" else "")
               date_key_script in
  fst run = 0%Z /\
  trace (snd run) = [["date"; "+%j"]] /\
  written (snd run) = [("/tmp/out", "DATE=307" ^^ newline)].
Proof. vm_compute. repeat split; reflexivity. Qed.

Example report_status_trace :
  let run := run_script
               (fun _ argv stdin =>
                  match argv with
                  | "tr" :: _ => (0%Z, Workflow.lower stdin)
                  | _ => (0%Z, "")
                  end)
               true (fun _ => "")
               (report_status_script
                  (fun k => if String.eqb k "job.status" then "Success" else "")) in
  fst run = 0%Z /\
  vars (snd run) "lowercase_status" = "success" /\
  List.map (hd "") (trace (snd run)) = ["tr"; "curl"].
Proof. vm_compute. repeat split; reflexivity. Qed.

End TestsStepFacts.

(** ** Failure handling in the three files *)

Section FailureFacts.
Import Shell Workflow Build.

(** C2, as stated, fails: the commit-count script has an error branch, and
    where git counts seven commits it takes it, prints its error message and
    exits with status 1. *)
Lemma commit_count_error_branch :
  has_exit commit_count_script = true /\
  (let run := run_script (world_counting 7) true (fun _ => "")
                         commit_count_script in
   fst run = 1%Z /\
   head (stdout (snd run)) =
   Some ("ERROR! More than 5 commits in PR -- please squash your commits."
           ^^ newline)).
Proof. split; [reflexivity |]. vm_compute. split; reflexivity. Qed.

Lemma unknown_test_type_error_branch :
  has_exit (tests_script "lint") = true /\
  fst (run_script (world_counting 0) false (fun _ => "") (tests_script "lint"))
  = 1%Z.
Proof. split; vm_compute; reflexivity. Qed.

(** The functions and methods the notebook defines. *)
Lemma notebook_operations :
  Notebook.operations =
  ["CounterLinear.__init__"; "CounterLinear.__call__";
   "load_pretrained_fragment"; "forward";
   "LinearEnsemble.__init__"; "LinearEnsemble.vmap_init";
   "LinearEnsemble.__call__"; "LinearEnsemble.vmap_apply";
   "ScannedLinear.__init__"; "ScannedLinear.__call__"; "f";
   "TransposedParam.create_value"; "TransposedParam.get_value";
   "TransposedParam.set_value"; "OddLinear.__init__"; "OddLinear.__call__";
   "MetadataParam.__init__"; "AnnotatedLinear.__init__";
   "AnnotatedLinear.__call__"; "batched_flatten"; "Example.__init__";
   "Example.__call__"].
Proof. vm_compute. reflexivity. Qed.

(** C2, amended: the workflow does contain failure-handling code.  Exactly two
    of its run steps have an explicit exit, both with status 1: the
    commit-count check and the test step; exactly two steps are marked
    [if: always()], so that they run after a failure: the commit-count check
    and the step that reports the job status.  The notebook's cells contain no
    [raise], [assert] or [try] statement. *)
Theorem failure_handling_inventory (ctx : string -> string) :
  exiting_steps ctx build =
    [("commit-count", "Check commit count in PR", [1%Z]);
     ("tests", "Test with ${{ matrix.test-type }}", [1%Z])] /\
  always_steps build =
    [("commit-count", "Check commit count in PR");
     ("tests", "Report success or failure as github status")] /\
  forallb (forallb (fun s => negb (Notebook.handles_failure s))) Notebook.cells
    = true.
Proof.
  split; [| split].
  - unfold exiting_steps, run_steps. cbn. reflexivity.
  - reflexivity.
  - vm_compute. reflexivity.
Qed.

End FailureFacts.

(** ** CounterLinear *)

Section CounterLinearFacts.
Import Nnx Notebook.

Variable Tensor : Type.
Variable Linear__call__ : Linear Tensor -> Tensor -> option Tensor.

Lemma int32_small (z : Z) :
  (- 2 ^ 31 <= z < 2 ^ 31)%Z -> int32 z = z.
Proof.
  intros H. unfold int32. rewrite Z.mod_small by lia. lia.
Qed.

Lemma int32_range (z : Z) : (- 2 ^ 31 <= int32 z < 2 ^ 31)%Z.
Proof.
  unfold int32.
  pose proof (Z.mod_pos_bound (z + 2 ^ 31) (2 ^ 32) ltac:(lia)). lia.
Qed.

(** On every module and every input, the call adds one to the count in int32
    arithmetic, keeps the linear layer, and returns what the layer returns. *)
Lemma CounterLinear_call_spec (self : CounterLinear Tensor) (x : Tensor) :
  let '(self', y) := CounterLinear__call__ Linear__call__ self x in
  count self' = int32 (count self + 1) /\
  linear self' = linear self /\
  y = Linear__call__ (linear self) x.
Proof. cbn. auto. Qed.

(** The first call on a fresh module leaves the count at 1, as the notebook
    prints it. *)
Lemma CounterLinear_first_call (Rngs : Type)
    (Linear__init__ : Z -> Z -> Rngs -> Linear Tensor)
    (din dout : Z) (rngs : Rngs) (x : Tensor) :
  count (fst (CounterLinear__call__ Linear__call__
                (CounterLinear__init__ Linear__init__ din dout rngs) x)) = 1%Z.
Proof. reflexivity. Qed.

(** C10, amended: when the count is an int32 below its maximum, a call
    increments it by exactly 1, leaves the kernel and the bias of the linear
    layer unchanged, and returns the result of applying that layer to [x]. *)
Theorem CounterLinear_call_increments (self : CounterLinear Tensor)
    (x : Tensor) :
  (- 2 ^ 31 <= count self < 2 ^ 31 - 1)%Z ->
  let '(self', y) := CounterLinear__call__ Linear__call__ self x in
  count self' = (count self + 1)%Z /\
  kernel (linear self') = kernel (linear self) /\
  bias (linear self') = bias (linear self) /\
  y = Linear__call__ (linear self') x /\
  y = Linear__call__ (linear self) x.
Proof.
  intros H. cbn. rewrite int32_small by lia. auto.
Qed.

End CounterLinearFacts.

Section CounterLinearExamples.
Import Nnx Notebook Examples.

Lemma CounterLinear_call_increments_witness :
  let '(self', y) := CounterLinear__call__ toy_call (toy_model 0) 2%Z in
  Notebook.count self' = 1%Z /\
  Notebook.kernel (Notebook.linear self') = 3%Z /\
  Notebook.bias (Notebook.linear self') = 1%Z /\
  y = toy_call (Notebook.linear self') 2%Z /\
  y = Some 7%Z.
Proof.
  apply (CounterLinear_call_increments Z toy_call (toy_model 0) 2%Z).
  cbn. lia.
Defined.

(** C10, as stated, fails at the largest int32: the count does not go up by
    one, it wraps around to the smallest int32. *)
Lemma CounterLinear_call_wraps :
  let self := toy_model 2147483647 in
  let self' := fst (CounterLinear__call__ toy_call self 2%Z) in
  Notebook.count self' = (-2147483648)%Z /\
  Notebook.count self' <> (Notebook.count self + 1)%Z.
Proof. cbn. split; [reflexivity | discriminate]. Qed.

End CounterLinearExamples.

(** ** Split and merge *)

Section StringFacts.
Import Nnx.

Lemma append_assoc (a b c : string) : (a ^^ b) ^^ c = a ^^ b ^^ c.
Proof. induction a as [|x a IH]; simpl; [reflexivity | now rewrite IH]. Qed.

Lemma append_inv_head (p a b : string) : p ^^ a = p ^^ b -> a = b.
Proof.
  induction p as [|x p IH]; simpl; [auto |].
  intros H. injection H as H. auto.
Qed.

Lemma slash_free_app_slash (n r : string) : slash_free (n ^^ "/" ^^ r) = false.
Proof.
  induction n as [|c n IH]; simpl in *; [reflexivity |].
  rewrite IH. apply andb_false_r.
Qed.

(** A name without [/] is determined by the path it starts. *)
Lemma slash_split_inj (n1 n2 r1 r2 : string) :
  slash_free n1 = true -> slash_free n2 = true ->
  n1 ^^ "/" ^^ r1 = n2 ^^ "/" ^^ r2 -> n1 = n2 /\ r1 = r2.
Proof.
  revert n2. induction n1 as [|c n1 IH]; intros [|d n2] H1 H2 E; simpl in *.
  - injection E as E. auto.
  - injection E as <- _. discriminate H2.
  - injection E as -> _. discriminate H1.
  - injection E as <- E.
    apply andb_true_iff in H1, H2. destruct H1 as [_ H1], H2 as [_ H2].
    destruct (IH n2 H1 H2 E) as [-> ->]. auto.
Qed.

Lemma distinct_NoDup (l : list string) :
  distinct l = true <-> List.NoDup l.
Proof.
  induction l as [|x l IH]; simpl.
  - split; [constructor | reflexivity].
  - rewrite andb_true_iff, negb_true_iff, str_in_false, IH.
    symmetry. apply List.NoDup_cons_iff.
Qed.

End StringFacts.

Section SplitMergeFacts.
Import Nnx.

Context {Tensor : Type}.

(** Induction on modules, with the hypothesis for every submodule. *)
Lemma Module_induction (P : Module_ Tensor -> Prop) :
  (forall ty sf vs ss,
      List.Forall (fun ns => P (snd ns)) ss -> P (mk_module ty sf vs ss)) ->
  forall m, P m.
Proof.
  intros H. fix IH 1. intros [ty sf vs ss]. apply H.
  induction ss as [|[n sub] ss IHss]; constructor; [apply IH | exact IHss].
Qed.

(** *** The definitions, unfolded one level *)

Lemma state_at_eq (p ty : string) sf vs (ss : list (string * Module_ Tensor)) :
  state_at p (mk_module ty sf vs ss) =
  (List.map (fun nv => (p ^^ fst nv, snd (snd nv))) vs ++ states_at p ss)%list.
Proof.
  cbn [state_at]. f_equal.
  induction ss as [|[n sub] ss IH]; [reflexivity |].
  cbn [states_at]. now rewrite <- IH.
Qed.

Lemma graphdef_at_eq (i : nat) (ty : string) sf vs
    (ss : list (string * Module_ Tensor)) :
  graphdef_at i (mk_module ty sf vs ss) =
  (mk_graphdef ty i sf (List.map (fun nv => (fst nv, fst (snd nv))) vs)
               (fst (graphdefs_at ss (S i))),
   snd (graphdefs_at ss (S i))).
Proof.
  cbn [graphdef_at].
  match goal with
  | |- (let '(gs, next) := ?f ss (S i) in _) = _ =>
      assert (E : forall l k, f l k = graphdefs_at l k)
  end.
  { intros l. induction l as [|[n sub] r IHr]; intros k; [reflexivity |].
    cbn [graphdefs_at]. destruct (graphdef_at k sub) as [g i1].
    rewrite IHr. reflexivity. }
  rewrite E. destruct (graphdefs_at ss (S i)). reflexivity.
Qed.

Lemma merge_at_eq (p ty : string) (i : nat) sf gvs gss
    (s : gmap string (Array Tensor)) :
  merge_at p (mk_graphdef ty i sf gvs gss) s =
  match merge_variables p s gvs, merge_submodules p s gss with
  | Some vs, Some ss => Some (mk_module ty sf vs ss)
  | _, _ => None
  end.
Proof.
  cbn [merge_at].
  match goal with
  | |- match ?a with _ => _ end = match ?b with _ => _ end =>
      assert (Ev : a = b)
  end.
  { induction gvs as [|[n vt] l IHl]; [reflexivity |].
    cbn [merge_variables]. now rewrite <- IHl. }
  rewrite Ev. destruct (merge_variables p s gvs); [| reflexivity].
  match goal with
  | |- match ?a with _ => _ end = match ?b with _ => _ end =>
      assert (Es : a = b)
  end.
  { induction gss as [|[n g] r IHr]; [reflexivity |].
    cbn [merge_submodules]. now rewrite <- IHr. }
  now rewrite Es.
Qed.

Lemma well_formed_eq (ty : string) sf vs (ss : list (string * Module_ Tensor)) :
  well_formed (mk_module ty sf vs ss) = true <->
  List.NoDup (List.map fst vs ++ List.map fst ss) /\
  (forall n, In n (List.map fst vs ++ List.map fst ss) -> slash_free n = true) /\
  (forall ns, In ns ss -> well_formed (snd ns) = true).
Proof.
  cbn [well_formed]. rewrite !andb_true_iff, distinct_NoDup, forallb_forall.
  assert (E : forall l : list (string * Module_ Tensor),
             (fix all (l : list (string * Module_ Tensor)) : bool :=
                match l with
                | [] => true
                | (_, sub) :: r => well_formed sub && all r
                end) l = true <->
             forall ns, In ns l -> well_formed (snd ns) = true).
  { intros l. induction l as [|[n sub] r IHr].
    - split; [intros _ ns [] | reflexivity].
    - rewrite andb_true_iff, IHr. split.
      + intros [H1 H2] ns [<- | H]; auto.
      + intros H. split; [apply (H (n, sub)); now left |].
        intros ns Hns. apply H. now right. }
  rewrite E. tauto.
Qed.

(** *** The state lists every variable, once *)

Lemma NoDup_app_intro {A : Type} (a b : list A) :
  List.NoDup a -> List.NoDup b -> (forall x, In x a -> In x b -> False) ->
  List.NoDup (a ++ b).
Proof.
  intros Ha Hb Hd. induction a as [|x a IH]; [exact Hb |].
  apply List.NoDup_cons_iff in Ha. destruct Ha as [Hx Ha].
  cbn. apply List.NoDup_cons_iff. split.
  - rewrite in_app_iff. intros [H | H]; [auto | apply (Hd x); [now left | exact H]].
  - apply IH; [exact Ha |]. intros y Hy. apply Hd. now right.
Qed.

Lemma NoDup_app_parts {A : Type} (a b : list A) :
  List.NoDup (a ++ b) -> List.NoDup a /\ List.NoDup b.
Proof.
  induction a as [|x a IH]; cbn; intros H.
  - split; [constructor | exact H].
  - apply List.NoDup_cons_iff in H. destruct H as [Hx H].
    destruct (IH H) as [Ha Hb]. split; [| exact Hb].
    apply List.NoDup_cons_iff. split; [| exact Ha].
    intros Hin. apply Hx, in_app_iff. now left.
Qed.

Lemma NoDup_map_prefix (p : string) (l : list string) :
  List.NoDup l -> List.NoDup (List.map (String.append p) l).
Proof.
  induction l as [|x l IH]; cbn [List.map]; intros H; [constructor |].
  apply List.NoDup_cons_iff in H. destruct H as [Hx H].
  apply List.NoDup_cons_iff. split; [| auto].
  intros Hin. apply in_map_iff in Hin. destruct Hin as (y & E & Hy).
  apply append_inv_head in E. now subst.
Qed.

Lemma in_states_at (p : string) (ss : list (string * Module_ Tensor))
    (k : string) (v : Array Tensor) :
  In (k, v) (states_at p ss) <->
  exists n sub, In (n, sub) ss /\ In (k, v) (state_at (p ^^ n ^^ "/") sub).
Proof.
  induction ss as [|[n sub] r IH]; cbn [states_at].
  - split; [intros [] | intros (? & ? & [] & _)].
  - rewrite in_app_iff, IH. split.
    + intros [H | (n' & sub' & Hin & H)].
      * exists n, sub. split; [now left | exact H].
      * exists n', sub'. split; [now right | exact H].
    + intros (n' & sub' & [E | Hin] & H).
      * injection E as <- <-. now left.
      * right. eauto.
Qed.

Lemma has_variable_state (m : Module_ Tensor) (r : string) (v : Array Tensor) :
  has_variable m r v -> forall p, In (p ^^ r, v) (state_at p m).
Proof.
  induction 1 as [ty sf vs ss n vt v Hin | ty sf vs ss n sub path v Hin Hv IH];
    intros p; rewrite state_at_eq, in_app_iff.
  - left. apply in_map_iff. exists (n, (vt, v)). split; [reflexivity | exact Hin].
  - right. apply in_states_at. exists n, sub. split; [exact Hin |].
    specialize (IH (p ^^ n ^^ "/")). now rewrite !append_assoc in IH.
Qed.

Lemma state_has_variable (m : Module_ Tensor) :
  forall p k v, In (k, v) (state_at p m) ->
                exists r, k = p ^^ r /\ has_variable m r v.
Proof.
  induction m as [ty sf vs ss IH] using Module_induction.
  intros p k v. rewrite state_at_eq, in_app_iff. intros [H | H].
  - apply in_map_iff in H. destruct H as ([n [vt v']] & E & Hin).
    cbn [fst snd] in E. injection E as <- <-.
    exists n. split; [reflexivity |]. econstructor; eauto.
  - apply in_states_at in H. destruct H as (n & sub & Hin & H).
    rewrite List.Forall_forall in IH.
    destruct (IH (n, sub) Hin _ _ _ H) as (r & -> & Hr).
    exists (n ^^ "/" ^^ r). split; [now rewrite !append_assoc |].
    eapply has_below; eauto.
Qed.

Lemma states_keys_NoDup (p : string) (ss : list (string * Module_ Tensor)) :
  List.NoDup (List.map fst ss) ->
  (forall n, In n (List.map fst ss) -> slash_free n = true) ->
  (forall ns, In ns ss ->
     List.NoDup (List.map fst (state_at (p ^^ fst ns ^^ "/") (snd ns)))) ->
  List.NoDup (List.map fst (states_at p ss)).
Proof.
  induction ss as [|[n sub] r IH]; intros Hnd Hsf Hsub; cbn [states_at].
  - constructor.
  - cbn [List.map fst] in Hnd. apply List.NoDup_cons_iff in Hnd.
    destruct Hnd as [Hn Hnd].
    rewrite List.map_app. apply NoDup_app_intro.
    + apply (Hsub (n, sub)). now left.
    + apply IH; [exact Hnd | |].
      * intros x Hx. apply Hsf. now right.
      * intros ns Hns. apply Hsub. now right.
    + intros k Hk1 Hk2.
      apply in_map_iff in Hk1. destruct Hk1 as ([k1 v1] & E1 & H1).
      apply state_has_variable in H1. destruct H1 as (r1 & -> & _).
      apply in_map_iff in Hk2. destruct Hk2 as ([k2 v2] & E2 & H2).
      apply in_states_at in H2. destruct H2 as (n2 & sub2 & Hin2 & H2).
      apply state_has_variable in H2. destruct H2 as (r2 & -> & _).
      cbn [fst] in E1, E2. subst k. rewrite !append_assoc in E2.
      apply append_inv_head in E2.
      assert (Hn2 : In n2 (List.map fst r))
        by (apply in_map_iff; exists (n2, sub2); auto).
      apply slash_split_inj in E2.
      * destruct E2 as [-> _]. contradiction.
      * apply Hsf. now right.
      * apply Hsf. now left.
Qed.

Lemma state_keys_NoDup (m : Module_ Tensor) :
  forall p, well_formed m = true ->
            List.NoDup (List.map fst (state_at p m)).
Proof.
  induction m as [ty sf vs ss IH] using Module_induction.
  intros p Hwf. apply well_formed_eq in Hwf. destruct Hwf as (Hnd & Hsf & Hsub).
  apply NoDup_app_parts in Hnd. destruct Hnd as [Hvs Hss].
  rewrite List.Forall_forall in IH.
  rewrite state_at_eq, List.map_app, List.map_map. cbn [fst].
  apply NoDup_app_intro.
  - rewrite <- (List.map_map fst (String.append p)).
    now apply NoDup_map_prefix.
  - apply states_keys_NoDup; [exact Hss | |].
    + intros n Hn. apply Hsf, in_app_iff. now right.
    + intros ns Hns. apply (IH ns Hns). now apply Hsub.
  - intros k Hk1 Hk2.
    apply in_map_iff in Hk1. destruct Hk1 as (nv & <- & Hin).
    apply in_map_iff in Hk2. destruct Hk2 as ([k2 v2] & E2 & H2).
    apply in_states_at in H2. destruct H2 as (n2 & sub2 & Hin2 & H2).
    apply state_has_variable in H2. destruct H2 as (r2 & -> & _).
    cbn [fst] in E2. rewrite !append_assoc in E2. apply append_inv_head in E2.
    assert (Hf : slash_free (fst nv) = true).
    { apply Hsf, in_app_iff. left. now apply in_map. }
    rewrite <- E2, slash_free_app_slash in Hf. discriminate.
Qed.

(** *** Merging what split returns *)

Lemma merge_variables_split (p : string) (S : gmap string (Array Tensor))
    (vs : list (string * (string * Array Tensor))) :
  (forall nv, In nv vs -> S !! (p ^^ fst nv) = Some (snd (snd nv))) ->
  merge_variables p S (List.map (fun nv => (fst nv, fst (snd nv))) vs) = Some vs.
Proof.
  induction vs as [|[n [vt v]] r IH]; intros H; [reflexivity |].
  cbn [List.map fst snd merge_variables].
  pose proof (H (n, (vt, v)) (or_introl eq_refl)) as Hv.
  cbn [fst snd] in Hv. rewrite Hv.
  rewrite IH; [reflexivity |]. intros nv Hnv. apply H. now right.
Qed.

Lemma merge_at_split (m : Module_ Tensor) :
  forall p i (S : gmap string (Array Tensor)),
    (forall k v, In (k, v) (state_at p m) -> S !! k = Some v) ->
    merge_at p (fst (graphdef_at i m)) S = Some m.
Proof.
  induction m as [ty sf vs ss IH] using Module_induction.
  intros p i S HS. rewrite graphdef_at_eq. cbn [fst]. rewrite merge_at_eq.
  rewrite merge_variables_split.
  2: { intros nv Hin. apply HS. rewrite state_at_eq, in_app_iff. left.
       apply in_map_iff. exists nv. split; [reflexivity | exact Hin]. }
  assert (HS' : forall k v, In (k, v) (states_at p ss) -> S !! k = Some v).
  { intros k v H. apply HS. rewrite state_at_eq, in_app_iff. now right. }
  clear HS.
  assert (Hs : forall j, merge_submodules p S (fst (graphdefs_at ss j)) = Some ss).
  { induction ss as [|[n sub] r IHr]; intros j; [reflexivity |].
    apply List.Forall_cons_iff in IH. destruct IH as [Hsub Hrest].
    cbn [snd] in Hsub. cbn [graphdefs_at]. pose proof (Hsub (p ^^ n ^^ "/") j S) as Hm.
    destruct (graphdef_at j sub) as [g j1] eqn:Eg.
    assert (Hr : merge_submodules p S (fst (graphdefs_at r j1)) = Some r).
    { apply IHr; [exact Hrest |]. intros k v H. apply HS'.
      cbn [states_at]. apply in_app_iff. now right. }
    destruct (graphdefs_at r j1) as [gr j2] eqn:Er.
    cbn [fst snd merge_submodules] in *.
    rewrite Hm, Hr; [reflexivity |].
    intros k v H. apply HS'. cbn [states_at]. apply in_app_iff. now left. }
  now rewrite Hs.
Qed.

(** *** The structure does not depend on the state *)

Lemma merge_variables_names (p : string) (S : gmap string (Array Tensor))
    (l : list (string * string)) (vs : list (string * (string * Array Tensor))) :
  merge_variables p S l = Some vs ->
  List.map (fun nv => (fst nv, fst (snd nv))) vs = l.
Proof.
  revert vs. induction l as [|[n vt] r IH]; intros vs; cbn [merge_variables].
  - intros E. injection E as <-. reflexivity.
  - destruct (S !! (p ^^ n)) as [v |]; [| discriminate].
    destruct (merge_variables p S r) as [vs' |]; [| discriminate].
    intros E. injection E as <-. cbn. now rewrite (IH vs').
Qed.

Lemma merge_at_structure (m : Module_ Tensor) :
  forall p i (S : gmap string (Array Tensor)) m',
    merge_at p (fst (graphdef_at i m)) S = Some m' ->
    graphdef_at i m' = graphdef_at i m.
Proof.
  induction m as [ty sf vs ss IH] using Module_induction.
  intros p i S m'. rewrite graphdef_at_eq. cbn [fst]. rewrite merge_at_eq.
  destruct (merge_variables p S _) as [vs' |] eqn:Ev; [| discriminate].
  destruct (merge_submodules p S _) as [ss' |] eqn:Es; [| discriminate].
  intros E. injection E as <-. rewrite graphdef_at_eq.
  apply merge_variables_names in Ev. rewrite Ev.
  assert (Hs : forall j ss',
             merge_submodules p S (fst (graphdefs_at ss j)) = Some ss' ->
             graphdefs_at ss' j = graphdefs_at ss j).
  { clear Es ss'. induction ss as [|[n sub] r IHr]; intros j ss'.
    - cbn. intros E. injection E as <-. reflexivity.
    - apply List.Forall_cons_iff in IH. destruct IH as [Hsub Hrest].
      cbn [snd] in Hsub. cbn [graphdefs_at]. pose proof (Hsub (p ^^ n ^^ "/") j S) as Hm.
      destruct (graphdef_at j sub) as [g j1] eqn:Eg.
      pose proof (IHr Hrest j1) as Hr.
      destruct (graphdefs_at r j1) as [gr j2] eqn:Er.
      cbn [fst snd merge_submodules] in *.
      destruct (merge_at (p ^^ n ^^ "/") g S) as [m1 |]; [| discriminate].
      destruct (merge_submodules p S gr) as [ms |]; [| discriminate].
      intros E. injection E as <-. cbn [graphdefs_at].
      rewrite (Hm m1 eq_refl), (Hr ms eq_refl). reflexivity. }
  now rewrite (Hs _ _ Es).
Qed.

(** *** Split, then merge *)

Lemma fmap_fst_map {A B : Type} (l : list (A * B)) : l.*1 = List.map fst l.
Proof. induction l as [|x l IH]; [reflexivity |]. cbn. now rewrite IH. Qed.

Lemma split_lookup (m : Module_ Tensor) (k : string) (v : Array Tensor) :
  well_formed m = true ->
  fst (split m) !! k = Some v <-> In (k, v) (state_at "" m).
Proof.
  intros Hwf. unfold split. cbn [fst].
  rewrite <- elem_of_list_to_map, list_elem_of_In; [reflexivity |].
  rewrite fmap_fst_map. apply NoDup_ListNoDup. now apply state_keys_NoDup.
Qed.

(** The state holds exactly the variables of the module. *)
Lemma split_state_exact (m : Module_ Tensor) (path : string) (v : Array Tensor) :
  well_formed m = true ->
  fst (split m) !! path = Some v <-> has_variable m path v.
Proof.
  intros Hwf. rewrite split_lookup by exact Hwf. split.
  - intros H. apply state_has_variable in H. destruct H as (r & E & Hr).
    cbn in E. now subst.
  - intros H. apply (has_variable_state m path v H "").
Qed.

Lemma merge_one (g : GraphDef) (S : gmap string (Array Tensor)) :
  merge g [S] = merge_at "" g S.
Proof. unfold merge. cbn [foldr]. now rewrite (right_id_L ∅ (∪)). Qed.

Lemma merge_split (m : Module_ Tensor) :
  well_formed m = true ->
  merge (snd (split m)) [fst (split m)] = Some m.
Proof.
  intros Hwf. rewrite merge_one. apply merge_at_split.
  intros k v H. now apply split_lookup.
Qed.

(** Merging the state in several parts ([static.merge(params, counts)]). *)
Lemma merge_parts (m : Module_ Tensor) (S1 S2 : gmap string (Array Tensor)) :
  well_formed m = true ->
  S1 ∪ S2 = fst (split m) ->
  merge (snd (split m)) [S1; S2] = Some m.
Proof.
  intros Hwf E. unfold merge. cbn [foldr].
  rewrite (right_id_L ∅ (∪)), E. rewrite <- merge_one. now apply merge_split.
Qed.

(** Whatever state is merged into it, the structure stays the same. *)
Lemma merge_structure (m m' : Module_ Tensor) (S : gmap string (Array Tensor)) :
  merge (snd (split m)) [S] = Some m' -> snd (split m') = snd (split m).
Proof.
  rewrite merge_one. unfold split. cbn [snd]. intros H.
  apply merge_at_structure in H. now rewrite H.
Qed.

End SplitMergeFacts.

(** ** The jitted [forward] *)

Section ForwardFacts.
Import Nnx Notebook.

Variable Tensor : Type.
Variable Linear__call__ : Linear Tensor -> Tensor -> option Tensor.

Lemma CounterLinear_module_well_formed (m : CounterLinear Tensor) :
  well_formed (CounterLinear_module m) = true.
Proof. reflexivity. Qed.

Lemma CounterLinear_of_module_module (m : CounterLinear Tensor) :
  CounterLinear_of_module (CounterLinear_module m) = Some m.
Proof. destruct m as [[] c]. reflexivity. Qed.

(** The state that split returns for a [CounterLinear] has the three entries
    the notebook prints. *)
Lemma CounterLinear_state (m : CounterLinear Tensor) :
  state_at "" (CounterLinear_module m) =
  [("count", I32 (count m));
   ("linear/bias", F32 (bias (linear m)));
   ("linear/kernel", F32 (kernel (linear m)))].
Proof. reflexivity. Qed.

Lemma CounterLinear_graphdef_indices (m : CounterLinear Tensor) :
  match snd (split (CounterLinear_module m)) with
  | mk_graphdef ty i _ vars [(n, mk_graphdef ty' i' _ vars' [])] =>
      (ty, i, vars, n, ty', i', vars') =
      ("CounterLinear", 0, [("count", "Count")], "linear", "Linear", 1,
       [("bias", "Param"); ("kernel", "Param")])
  | _ => False
  end.
Proof. reflexivity. Qed.

(** Carrying a module through [forward]: the output is the layer's output,
    and the returned state is the state of the module after the call, so its
    count is one more (in int32). *)
Lemma forward_split (m : CounterLinear Tensor) (x y : Tensor) :
  Linear__call__ (linear m) x = Some y ->
  let '(state, static) := split (CounterLinear_module m) in
  exists state',
    forward Linear__call__ static state x = Some (y, state') /\
    state' !! "count" = Some (I32 (int32 (count m + 1))) /\
    state' !! "linear/kernel" = state !! "linear/kernel" /\
    state' !! "linear/bias" = state !! "linear/bias".
Proof.
  intros Hy.
  destruct (split (CounterLinear_module m)) as [state static] eqn:E.
  assert (Em : merge static [state] = Some (CounterLinear_module m)).
  { replace static with (snd (split (CounterLinear_module m))) by now rewrite E.
    replace state with (fst (split (CounterLinear_module m))) by now rewrite E.
    apply merge_split, CounterLinear_module_well_formed. }
  unfold forward. rewrite Em. cbn [mbind option_bind].
  rewrite CounterLinear_of_module_module. cbn [mbind option_bind].
  unfold CounterLinear__call__. cbn [linear]. rewrite Hy. cbn [mbind option_bind].
  eexists. split; [reflexivity |].
  replace state with (fst (split (CounterLinear_module m))) by now rewrite E.
  split; [| split]; reflexivity.
Qed.

End ForwardFacts.

(** ** Split and merge: the round trip *)

Section RoundTrip.
Import Nnx Notebook Examples.

(** C1: for every module (a tree of modules whose attribute names are
    distinct identifiers), split returns a state that holds exactly the
    module's variables, each at its path, and a graph definition that stays
    the same whatever state is merged into it; merging the graph definition
    with the state gives back the module. *)
Theorem split_merge_roundtrip (Tensor : Type) (m : Module_ Tensor) :
  well_formed m = true ->
  (forall path v, fst (split m) !! path = Some v <-> has_variable m path v) /\
  (forall (S : gmap string (Array Tensor)) (m' : Module_ Tensor),
      merge (snd (split m)) [S] = Some m' ->
      snd (split m') = snd (split m)) /\
  merge (snd (split m)) [fst (split m)] = Some m.
Proof.
  intros Hwf. split; [| split].
  - intros path v. now apply split_state_exact.
  - intros S m'. apply merge_structure.
  - now apply merge_split.
Qed.

Lemma split_merge_roundtrip_witness :
  merge (snd (split (CounterLinear_module (toy_model 0))))
        [fst (split (CounterLinear_module (toy_model 0)))]
  = Some (CounterLinear_module (toy_model 0)).
Proof.
  exact (proj2 (proj2 (split_merge_roundtrip Z
                         (CounterLinear_module (toy_model 0)) eq_refl))).
Defined.

End RoundTrip.

(** * Further properties *)

(** ** The scripts: failures of the programs they run *)

Section ScriptFailureFacts.
Import Shell Workflow Build Scripts ScriptsMore MoreExamples.

(** X9: What the commit-count script ends with, whatever git does: a git
    command that fails ends the script with its status, and nothing after it
    is run; when the three of them succeed and [git rev-list] printed the
    count [n], the status is 1 if [n] exceeds 6 and 0 otherwise. *)
Theorem commit_count_status (w : world) (env : string -> string) (n : N) :
  let rc1 := fst (w [] (fetch_ref env) "") in
  let rc2 := fst (w [fetch_ref env] fetch_main "") in
  let r3 := w [fetch_ref env; fetch_main] rev_list "" in
  let run := run_script w true env commit_count_script in
  (fst r3 = 0%Z -> snd r3 = decimal_N n ^^ newline) ->
  (n < 2 ^ 63)%N ->
  fst run =
    (if negb (rc1 =? 0) then rc1
     else if negb (rc2 =? 0) then rc2
     else if negb (fst r3 =? 0) then fst r3
     else if 6 <? Z.of_N n then 1 else 0)%Z /\
  trace (snd run) =
    (if negb (rc1 =? 0)%Z then [fetch_ref env]
     else if negb (rc2 =? 0)%Z then [fetch_ref env; fetch_main]
     else [fetch_ref env; fetch_main; rev_list]).
Proof.
  cbv zeta.
  unfold run_script, commit_count_script, fetch_ref, fetch_main, rev_list.
  cbn.
  destruct (w [] _ "") as [rc1 o1]. cbn [fst]. unfold errexit.
  destruct (Z.eqb_spec rc1 0) as [-> | H1]; cbn; [| auto].
  destruct (w [_] _ "") as [rc2 o2]. cbn [fst].
  destruct (Z.eqb_spec rc2 0) as [-> | H2]; cbn; [| auto].
  destruct (w [_; _] _ "") as [rc3 o3]. cbn [fst snd].
  intros Ho Hn.
  destruct (Z.eqb_spec rc3 0) as [-> | H3]; cbn.
  - rewrite !append_empty_r, (Ho eq_refl), (arith_value_decimal n Hn).
    destruct (6 <? Z.of_N n)%Z; cbn; auto.
  - destruct (Z.eqb_spec rc3 0); [contradiction | cbn; auto].
Qed.

Lemma commit_count_status_witness :
  fst (run_script fetch_fails true (fun _ => "") commit_count_script) = 128%Z /\
  trace (snd (run_script fetch_fails true (fun _ => "") commit_count_script))
  = [fetch_ref (fun _ => "")].
Proof.
  apply (commit_count_status fetch_fails (fun _ => "") 0%N).
  - reflexivity.
  - reflexivity.
Defined.

(** X10: The script that builds the virtual environment is fail-fast over
    its plan, [rm -rf venv] when the directory exists and then the four
    install commands: it runs them in order, each after the one before it
    succeeded, runs nothing after one that failed, and ends with the status
    of the last program it ran. *)
Theorem install_dependencies_fail_fast (w : world) (env : string -> string) :
  let venv_exists := is_dir w (initial env) "venv" in
  let run := run_script w false env install_dependencies_script in
  (trace (snd run), fst run) = until_failure w [] (install_plan venv_exists).
Proof.
  cbv zeta.
  unfold run_script, install_dependencies_script, install_plan,
    install_commands, remove_venv.
  cbn. unfold is_dir, dir_test. cbn [trace initial].
  destruct (w [] ["["; "-d"; "venv"; "]"] "") as [rc0 o0]. cbn [fst].
  destruct (Z.eqb_spec rc0 0) as [-> | H0]; cbn;
    repeat (match goal with
            | |- context [w ?h ?a ""] =>
                destruct (w h a "") as [? ?]; unfold errexit; cbn [fst];
                match goal with
                | |- context [Z.eqb ?rc 0] =>
                    destruct (Z.eqb_spec rc 0); [subst |]
                end; cbn
            end);
    reflexivity.
Qed.






End ScriptFailureFacts.

(** ** Steps of the jobs *)

Section StepFacts.
Import Shell Workflow Build Steps.

Lemma exec_length ctx act i ok (l : list step) :
  List.length (exec ctx act i ok l) = List.length l.
Proof.
  revert i ok. induction l as [|s r IH]; intros i ok; [reflexivity |].
  cbn [exec]. destruct (step_runs ctx ok s); cbn; now rewrite IH.
Qed.

(** Once a step has failed, [success()] stays false: every later step is
    skipped unless it says [if: always()]. *)
Lemma exec_after_failure ctx act i (l : list step) (k : nat) (s : step) :
  nth_error l k = Some s ->
  if_ s <> Some Always ->
  nth_error (exec ctx act i false l) k = Some NotRun.
Proof.
  revert i k. induction l as [|x r IH]; intros i k Hk Hs.
  - destruct k; discriminate Hk.
  - cbn [exec]. destruct k as [|k]; cbn in Hk.
    + injection Hk as ->. unfold step_runs.
      destruct (if_ s) as [[] |]; try reflexivity. congruence.
    + destruct (step_runs ctx false x); cbn [nth_error andb]; now apply IH.
Qed.

Lemma exec_failure_skips ctx act (l : list step) :
  forall i ok a b s,
    nth_error (exec ctx act i ok l) a = Some (Ran false) ->
    a < b -> nth_error l b = Some s -> if_ s <> Some Always ->
    nth_error (exec ctx act i ok l) b = Some NotRun.
Proof.
  induction l as [|x r IH]; intros i ok a b s Ha Hab Hb Hs.
  - destruct a; discriminate Ha.
  - destruct b as [|b]; [lia |]. cbn [nth_error] in Hb. cbn [exec] in *.
    destruct a as [|a].
    + destruct (step_runs ctx ok x); cbn [nth_error] in *; [| discriminate Ha].
      injection Ha as Ha. rewrite Ha, andb_false_r.
      eapply exec_after_failure; eauto.
    + destruct (step_runs ctx ok x); cbn [nth_error] in *;
        eapply IH; eauto; lia.
Qed.

(** A step marked [if: always()] runs whatever happened before it. *)
Lemma exec_always_runs ctx act (l : list step) :
  forall i ok k s,
    nth_error l k = Some s -> if_ s = Some Always ->
    nth_error (exec ctx act i ok l) k = Some (Ran (act (i + k) s)).
Proof.
  induction l as [|x r IH]; intros i ok k s Hk Hs.
  - destruct k; discriminate Hk.
  - cbn [exec]. destruct k as [|k]; cbn [nth_error] in Hk.
    + injection Hk as ->. unfold step_runs. rewrite Hs.
      cbn. now rewrite Nat.add_0_r.
    + replace (i + S k) with (S i + k) by lia.
      destruct (step_runs ctx ok x); cbn [nth_error]; now apply IH.
Qed.

(** X13: In the [tests] job the last step, the report of the job status,
    runs in every run, whatever the steps before it did; and when a step
    fails, every step after it but that last one is skipped, the Codecov
    upload included. *)
Theorem tests_job_failure (ctx : string -> string)
    (act : nat -> step -> bool) :
  nth_error (run_job ctx act tests) 9 = Some (Ran (act 9 report_status_step)) /\
  forall a b : nat,
    nth_error (run_job ctx act tests) a = Some (Ran false) ->
    a < b -> b < 9 ->
    nth_error (run_job ctx act tests) b = Some NotRun.
Proof.
  unfold run_job. split.
  - apply (exec_always_runs ctx act (steps tests) 0 true 9 report_status_step);
      reflexivity.
  - intros a b Ha Hab Hb.
    destruct (nth_error (steps tests) b) as [s |] eqn:Es.
    + eapply exec_failure_skips; eauto.
      do 9 (destruct b as [|b]; [cbn in Es; injection Es as <-; cbn;
                                 congruence |]).
      lia.
    + apply nth_error_None in Es. cbn in Es. lia.
Qed.

End StepFacts.

Section StepExamples.
Import Shell Workflow Build Steps MoreExamples.

Lemma tests_job_failure_witness :
  nth_error (run_job pytest_context test_step_fails tests) 9
  = Some (Ran (test_step_fails 9 report_status_step)) /\
  nth_error (run_job pytest_context test_step_fails tests) 8 = Some NotRun.
Proof.
  split.
  - apply (tests_job_failure pytest_context test_step_fails).
  - apply (proj2 (tests_job_failure pytest_context test_step_fails) 7 8).
    + reflexivity.
    + lia.
    + lia.
Defined.

(** X14: In a run where every step that runs succeeds, the conditional steps
    of the [tests] job run as follows: the dependencies are installed unless
    the cache was hit, the mypy cache is restored for mypy only, the coverage
    is uploaded for pytest only; every other step runs. *)
Theorem tests_job_conditional_steps (ctx : string -> string) :
  run_job ctx (fun _ _ => true) tests =
  [ Ran true; Ran true; Ran true; Ran true;
    (if eqb_ci (ctx "steps.venv_cache.outputs.cache-hit") "true"
     then NotRun else Ran true);
    Ran true;
    (if eqb_ci (ctx "matrix.test-type") "mypy" then Ran true else NotRun);
    Ran true;
    (if eqb_ci (ctx "matrix.test-type") "pytest" then Ran true else NotRun);
    Ran true ].
Proof.
  unfold run_job. cbn [tests steps exec step_runs uses setup_python run_step
                       if_ tests_step report_status_step andb eval negb].
  destruct (eqb_ci (ctx "steps.venv_cache.outputs.cache-hit") "true");
    destruct (eqb_ci (ctx "matrix.test-type") "mypy");
    destruct (eqb_ci (ctx "matrix.test-type") "pytest"); reflexivity.
Qed.

(** X15: The [commit-count] job, where git reports [n] commits: the count
    check runs even when the checkout failed, and the job succeeds exactly
    when the checkout succeeded and there are at most 6 commits. *)
Theorem commit_count_job (w : nat -> world) (env ctx : string -> string)
    (uses_ok : nat -> string -> bool) (n : N) :
  git_reports (w 1) env n -> (n < 2 ^ 63)%N ->
  let outs := run_job ctx (step_ok w env uses_ok ctx) commit_count in
  outs = [Ran (uses_ok 0 "actions/checkout@v3"); Ran (n <=? 6)%N] /\
  job_succeeds outs = uses_ok 0 "actions/checkout@v3" && (n <=? 6)%N.
Proof.
  intros Hg Hn. pose proof (commit_count_run (w 1) env n Hg Hn) as H.
  cbv zeta. unfold run_job, step_ok.
  cbn [commit_count steps exec step_runs uses commit_count_step if_ does
       pipefail shell String.eqb Ascii.eqb Bool.eqb andb].
  destruct (run_script (w 1) true env commit_count_script) as [rc st].
  destruct H as (-> & _). cbn [fst].
  assert (E : ((if (6 <? Z.of_N n)%Z then 1%Z else 0%Z) =? 0)%Z = (n <=? 6)%N).
  { destruct (Z.ltb_spec 6 (Z.of_N n)), (N.leb_spec n 6); try reflexivity; lia. }
  rewrite E. split; [reflexivity |].
  unfold job_succeeds. cbn.
  destruct (uses_ok 0 "actions/checkout@v3"), (n <=? 6)%N; reflexivity.
Qed.

Lemma commit_count_job_witness :
  job_succeeds
    (run_job (fun _ => "")
       (step_ok (counting_worlds 7) (fun _ => "") actions_succeed (fun _ => ""))
       commit_count)
  = actions_succeed 0 "actions/checkout@v3" && (7 <=? 6)%N.
Proof.
  apply (commit_count_job (counting_worlds 7) (fun _ => "") (fun _ => "")
           actions_succeed 7%N).
  - repeat split; reflexivity.
  - reflexivity.
Defined.

End StepExamples.

(** ** Scheduling: what a failed job does to the jobs that need it *)

Section SchedulerMore.
Import Workflow.

Variable w : workflow.
Hypothesis unique_ids : List.NoDup (List.map id (jobs w)).

(** A step never changes a job that has completed. *)
Lemma sched_keeps_completed (st st' : run_state) (n : string) :
  sched w st st' -> completed (st n) = true -> st' n = st n.
Proof.
  intros Hs Hn.
  assert (K : forall j s, completed (st (id j)) = false ->
                          set_status (id j) s st n = st n).
  { intros j s Hj. apply set_status_other. intros ->. congruence. }
  destruct Hs as [st j _ Hc | st j ok _ Hr | st j _ Hk | st j _ Hc]; apply K.
  - apply can_start_needs in Hc. destruct Hc as [-> _]. reflexivity.
  - now rewrite Hr.
  - unfold must_skip in Hk. apply andb_true_iff in Hk. destruct Hk as [Hk _].
    apply jstatus_eqb_eq in Hk. now rewrite Hk.
  - exact Hc.
Qed.

Lemma reachable_rtc (st st' : run_state) :
  reachable w st -> rtc (sched w) st st' -> reachable w st'.
Proof.
  intros Hr Hs. induction Hs as [| a b c Hab _ IH]; [exact Hr |].
  apply IH. eapply reach_step; eauto.
Qed.

Lemma rtc_keeps_completed (st st' : run_state) (n : string) :
  rtc (sched w) st st' -> completed (st n) = true -> st' n = st n.
Proof.
  induction 1 as [| a b c Hab _ IH]; intros Hn; [reflexivity |].
  pose proof (sched_keeps_completed a b n Hab Hn) as E.
  rewrite IH; [exact E | now rewrite E].
Qed.

(** A job is skipped only because a job it needs failed, was skipped or was
    cancelled. *)
Lemma skipped_has_cause (st : run_state) :
  reachable w st ->
  forall j, In j (jobs w) -> st (id j) = Skipped ->
  exists n, In n (needs j) /\
            (st n = Failed \/ st n = Skipped \/ st n = Cancelled).
Proof using unique_ids.
  induction 1 as [| st st' Hr IH Hs]; intros j Hj Hst; [discriminate Hst |].
  destruct (jstatus_eqb (st (id j)) Skipped) eqn:Hold.
  - apply jstatus_eqb_eq in Hold. destruct (IH j Hj Hold) as (n & Hn & Hbad).
    exists n. split; [exact Hn |].
    rewrite (sched_keeps_completed st st' n Hs);
      [exact Hbad | destruct Hbad as [-> | [-> | ->]]; reflexivity].
  - assert (Hne : st (id j) <> Skipped).
    { intros E. rewrite E in Hold. discriminate. }
    assert (Hs' := Hs).
    destruct Hs as [st j' Hj' Hc | st j' ok Hj' Hrun | st j' Hj' Hk
                   | st j' Hj' Hc];
      (destruct (String.eqb_spec (id j) (id j')) as [E | E];
       [| rewrite set_status_other in Hst by exact E; contradiction]).
    + rewrite E, set_status_same in Hst. discriminate.
    + rewrite E, set_status_same in Hst. destruct ok; discriminate.
    + assert (j = j') by (now apply (same_id_same_job w unique_ids)). subst j'.
      unfold must_skip in Hk. apply andb_true_iff in Hk. destruct Hk as [_ Hk].
      apply existsb_exists in Hk. destruct Hk as (n & Hn & Hbad).
      exists n. split; [exact Hn |].
      assert (Hc : completed (st n) = true)
        by (destruct (st n); try discriminate Hbad; reflexivity).
      rewrite (sched_keeps_completed st _ n Hs' Hc).
      destruct (st n); try discriminate Hbad; auto.
    + rewrite E, set_status_same in Hst. discriminate.
Qed.

End SchedulerMore.

Section BuildScheduleMore.
Import Workflow Build MoreExamples.

(** X16: Once one of the jobs that [tests] needs has completed without success
    (failed, skipped or cancelled), [tests] has not started and never will, in
    any continuation of the run. *)
Theorem failed_need_blocks_tests (st st' : run_state) (n : string) :
  reachable build st ->
  In n (needs tests) ->
  completed (st n) = true -> st n <> Succeeded ->
  rtc (sched build) st st' ->
  started (st' "tests") = false /\ st' n = st n.
Proof.
  intros Hr Hn Hc Hne Hs.
  pose proof (rtc_keeps_completed build st st' n Hs Hc) as E.
  split; [| exact E].
  destruct (started (st' "tests")) eqn:Hst; [| reflexivity].
  destruct Hne. rewrite <- E.
  apply (started_after_needs build build_unique_ids st'
           (reachable_rtc build st st' Hr Hs) tests); auto.
  simpl. tauto.
Qed.

Lemma import_failed_reachable : reachable build import_failed.
Proof.
  unfold import_failed.
  eapply reach_step; [| apply (sched_finish build _ test_import false);
                        [simpl; tauto | reflexivity]].
  eapply reach_step; [| apply (sched_start build _ test_import);
                        [simpl; tauto | reflexivity]].
  apply reach_init.
Defined.

Lemma tests_skipped_reachable : reachable build tests_skipped.
Proof.
  unfold tests_skipped.
  eapply reach_step; [apply import_failed_reachable |].
  apply (sched_skip build _ tests); [simpl; tauto | reflexivity].
Defined.

Lemma failed_need_blocks_tests_witness :
  started (tests_skipped "tests") = false /\
  tests_skipped "test-import" = import_failed "test-import".
Proof.
  apply (failed_need_blocks_tests import_failed tests_skipped "test-import").
  - apply import_failed_reachable.
  - simpl. tauto.
  - reflexivity.
  - discriminate.
  - apply rtc_once. apply (sched_skip build _ tests); [simpl; tauto | reflexivity].
Defined.

(** X17: The four jobs that [tests] needs need nothing themselves, so they are
    never skipped; hence [tests] is skipped only when one of them failed or
    was cancelled. *)
Theorem tests_skipped_cause (st : run_state) :
  reachable build st ->
  st "tests" = Skipped ->
  exists n, In n (needs tests) /\ (st n = Failed \/ st n = Cancelled).
Proof.
  intros Hr Hst.
  destruct (skipped_has_cause build build_unique_ids st Hr tests) as (n & Hn & Hbad).
  { simpl. tauto. }
  { exact Hst. }
  exists n. split; [exact Hn |].
  destruct Hbad as [H | [H | H]]; auto.
  (* a needed job is a root: it cannot have been skipped *)
  exfalso.
  assert (Hroot : exists j, In j (jobs build) /\ id j = n /\ needs j = []).
  { simpl in Hn.
    destruct Hn as [<- | [<- | [<- | [<- | []]]]];
      [exists cancel_previous | exists pre_commit | exists commit_count
       | exists test_import]; simpl; tauto. }
  destruct Hroot as (j & Hj & <- & Hnone).
  destruct (skipped_has_cause build build_unique_ids st Hr j Hj H)
    as (m & Hm & _).
  rewrite Hnone in Hm. destruct Hm.
Qed.

Lemma tests_skipped_cause_witness :
  exists n, In n (needs tests) /\
            (tests_skipped n = Failed \/ tests_skipped n = Cancelled).
Proof.
  apply (tests_skipped_cause tests_skipped).
  - apply tests_skipped_reachable.
  - reflexivity.
Defined.

End BuildScheduleMore.

(** ** The layers index: the listings against the sections *)

Section LayersIndexMoreFacts.
Import LayersIndex LayersIndexMore.

Lemma incl_by_str_in (a b : list string) :
  forallb (fun x => str_in x b) a = true -> incl a b.
Proof.
  rewrite forallb_forall. intros H x Hx. apply str_in_In. now apply H.
Qed.

(** X19: Nothing is listed that is not documented: every name of the class
    listing is documented by a [flax_module] directive and every name of the
    function listing by an [autofunction] directive; the function listing is
    complete; and no name is documented or listed twice. *)
Theorem layers_listings_sound :
  incl (class_summary layers) (flax_module_classes layers) /\
  incl (function_summary layers) (autofunctions layers) /\
  incl (autofunctions layers) (function_summary layers) /\
  List.NoDup (flax_module_classes layers ++ autofunctions layers) /\
  List.NoDup (autosummary_entries layers).
Proof.
  repeat split; try (apply incl_by_str_in; vm_compute; reflexivity);
    apply distinct_NoDup; vm_compute; reflexivity.
Qed.

End LayersIndexMoreFacts.

(** ** Calling a CounterLinear again and again *)

Section CallsFacts.
Import Nnx Notebook Cells.

Variable Tensor : Type.
Variable Linear__call__ : Linear Tensor -> Tensor -> option Tensor.

Lemma int32_add (z k : Z) : int32 (int32 z + k) = int32 (z + k).
Proof.
  unfold int32. f_equal.
  replace ((z + 2 ^ 31) mod 2 ^ 32 - 2 ^ 31 + k + 2 ^ 31)%Z
    with ((z + 2 ^ 31) mod 2 ^ 32 + k)%Z by lia.
  replace (z + k + 2 ^ 31)%Z with ((z + 2 ^ 31) + k)%Z by lia.
  apply Zplus_mod_idemp_l.
Qed.

Lemma calls_spec (xs : list Tensor) :
  forall self : CounterLinear Tensor,
    let '(self', ys) := calls Linear__call__ self xs in
    linear self' = linear self /\
    ys = List.map (Linear__call__ (linear self)) xs /\
    (xs <> [] -> count self' = int32 (count self + Z.of_nat (List.length xs))) /\
    (xs = [] -> count self' = count self).
Proof.
  induction xs as [|x r IH]; intros self.
  - cbn. repeat split; congruence.
  - cbn [calls]. unfold CounterLinear__call__ at 1. cbn [linear].
    specialize (IH {| linear := linear self; count := int32 (count self + 1) |}).
    destruct (calls Linear__call__ _ r) as [self2 ys].
    cbn [linear count] in IH. destruct IH as (Hl & Hy & Hc & Hn).
    repeat split; try congruence.
    + cbn [List.map]. now rewrite Hy.
    + intros _. destruct r as [|x' r'].
      * rewrite (Hn eq_refl). reflexivity.
      * rewrite Hc by discriminate. rewrite int32_add. f_equal.
        cbn [List.length]. lia.
Qed.

(** X1: After any number of calls on the same object, the count is the old
    count plus the number of calls, in int32 arithmetic, and still an int32;
    the linear layer is the one the object had, and each call returned what
    that layer returns on its input. *)
Theorem calls_count (self : CounterLinear Tensor) (xs : list Tensor) :
  (- 2 ^ 31 <= count self < 2 ^ 31)%Z ->
  let '(self', ys) := calls Linear__call__ self xs in
  count self' = int32 (count self + Z.of_nat (List.length xs)) /\
  (- 2 ^ 31 <= count self' < 2 ^ 31)%Z /\
  linear self' = linear self /\
  ys = List.map (Linear__call__ (linear self)) xs.
Proof.
  intros Hr. pose proof (calls_spec xs self) as H.
  destruct (calls Linear__call__ self xs) as [self' ys].
  destruct H as (Hl & Hy & Hc & Hn).
  assert (E : count self' = int32 (count self + Z.of_nat (List.length xs))).
  { destruct xs as [|x r].
    - rewrite (Hn eq_refl). cbn. rewrite Z.add_0_r.
      symmetry. now apply int32_small.
    - apply Hc. discriminate. }
  repeat split; auto; rewrite E; apply int32_range.
Qed.

(** *** Through [forward] *)

(** X2: One call of [forward] on what split gave: it raises when the layer
    does; otherwise it returns the layer's output together with the state of
    the object after the call, whose structure is the one that was passed in. *)
Theorem forward_call (m : CounterLinear Tensor) (x : Tensor) :
  let m' := fst (CounterLinear__call__ Linear__call__ m x) in
  forward Linear__call__ (static_of m) (state_of m) x =
    match Linear__call__ (linear m) x with
    | Some y => Some (y, state_of m')
    | None => None
    end /\
  static_of m' = static_of m.
Proof.
  cbv zeta. split; [| reflexivity].
  unfold forward, static_of, state_of.
  rewrite merge_split by apply CounterLinear_module_well_formed.
  cbn [mbind option_bind]. rewrite CounterLinear_of_module_module.
  cbn [mbind option_bind]. unfold CounterLinear__call__. cbn [linear fst].
  destruct (Linear__call__ (linear m) x); reflexivity.
Qed.

Lemma forward_step (m : CounterLinear Tensor) (x : Tensor) :
  forward Linear__call__ (static_of m) (state_of m) x =
  match Linear__call__ (linear m) x with
  | Some y =>
      Some (y, state_of {| linear := linear m; count := int32 (count m + 1) |})
  | None => None
  end.
Proof.
  unfold forward, static_of, state_of.
  rewrite merge_split by apply CounterLinear_module_well_formed.
  cbn [mbind option_bind]. rewrite CounterLinear_of_module_module.
  cbn [mbind option_bind]. unfold CounterLinear__call__. cbn [linear fst].
  destruct (Linear__call__ (linear m) x); reflexivity.
Qed.

(** X3: Threading the state through [forward], call after call, gives what
    calling the object itself gives: the same outputs, and the state of the
    object after the calls; it raises exactly when one of the calls does. *)
Theorem forward_loop_calls (xs : list Tensor) (m : CounterLinear Tensor) :
  forward_loop Linear__call__ (static_of m) (state_of m) xs =
  match returned (snd (calls Linear__call__ m xs)) with
  | Some ys => Some (ys, state_of (fst (calls Linear__call__ m xs)))
  | None => None
  end.
Proof.
  revert m. induction xs as [|x r IH]; intros m; [reflexivity |].
  cbn [forward_loop calls]. rewrite forward_step.
  unfold CounterLinear__call__ at 1 2. cbn [linear].
  set (m1 := {| linear := linear m; count := int32 (count m + 1) |}).
  specialize (IH m1).
  change (static_of m) with (static_of m1).
  destruct (Linear__call__ (linear m) x) as [y |].
  - rewrite IH. destruct (calls Linear__call__ m1 r) as [m2 ys].
    cbn [fst snd returned]. destruct (returned ys); reflexivity.
  - destruct (calls Linear__call__ m1 r) as [m2 ys]. reflexivity.
Qed.

End CallsFacts.

Section CallsExamples.
Import Nnx Notebook Cells Examples.

Lemma calls_count_witness :
  let '(self', ys) := calls toy_call (toy_model 0) [1; 2; 3]%Z in
  Notebook.count self' = int32 (Notebook.count (toy_model 0) + Z.of_nat 3) /\
  (- 2 ^ 31 <= Notebook.count self' < 2 ^ 31)%Z /\
  Notebook.linear self' = Notebook.linear (toy_model 0) /\
  ys = List.map (toy_call (Notebook.linear (toy_model 0))) [1; 2; 3]%Z.
Proof.
  apply (calls_count Z toy_call (toy_model 0) [1; 2; 3]%Z).
  cbn. lia.
Defined.

End CallsExamples.

(** ** Surgery on a stack of layers *)

Section SurgeryFacts.
Import Nnx Notebook Cells.
Local Open Scope list_scope.

Variable Tensor : Type.
Variable Rngs : Type.
Variable draw : Z -> Z -> Rngs -> Tensor * Tensor * Rngs.

(** The loop over positions does what going through the layers from left to
    right does; it ends by running off the end of the list. *)
Lemma surgery_from_converted (rest : list (layer Tensor)) :
  forall (pre : list (layer Tensor)) (fuel : nat) (rngs : Rngs),
    List.length rest <= fuel ->
    surgery_from draw (List.length pre) fuel (pre ++ rest) rngs =
    (pre ++ fst (converted draw rest rngs), snd (converted draw rest rngs)).
Proof.
  induction rest as [|x r IH]; intros pre fuel rngs Hf.
  - cbn [converted fst snd]. destruct fuel as [|fuel]; [reflexivity |].
    cbn [surgery_from]. rewrite lookup_ge_None_2; [reflexivity |].
    rewrite length_app. cbn. lia.
  - destruct fuel as [|fuel]; [cbn in Hf; lia |].
    cbn [surgery_from]. rewrite list_lookup_middle by reflexivity.
    assert (Hnext : forall y rngs',
               surgery_from draw (S (List.length pre)) fuel (pre ++ y :: r) rngs'
               = (pre ++ y :: fst (converted draw r rngs'),
                  snd (converted draw r rngs'))).
    { intros y rngs'.
      replace (S (List.length pre)) with (List.length (pre ++ [y]))
        by (rewrite length_app; cbn; lia).
      rewrite (cons_middle y pre r), app_assoc.
      rewrite IH by (cbn in Hf; lia). now rewrite <- app_assoc. }
    destruct x as [c | l | f]; cbn [converted].
    + destruct (new_Linear draw _ _ rngs) as [l rngs1].
      rewrite insert_app_r_alt by reflexivity.
      rewrite Nat.sub_diag. cbn [insert list_insert].
      rewrite Hnext. destruct (converted draw r rngs1). reflexivity.
    + rewrite Hnext. destruct (converted draw r rngs). reflexivity.
    + rewrite Hnext. destruct (converted draw r rngs). reflexivity.
Qed.

Lemma surgery_converted (model : list (layer Tensor)) (rngs : Rngs) :
  surgery draw model rngs = converted draw model rngs.
Proof.
  unfold surgery.
  pose proof (surgery_from_converted model [] (List.length model) rngs
                (le_n _)) as H.
  cbn [List.length app] in H. rewrite H.
  now destruct (converted draw model rngs).
Qed.

Lemma new_Linear_features (din dout : Z) (rngs : Rngs) :
  Notebook.in_features (fst (new_Linear draw din dout rngs)) = din /\
  Notebook.out_features _ (fst (new_Linear draw din dout rngs)) = dout.
Proof.
  unfold new_Linear. destruct (draw din dout rngs) as [[k b] r]. cbn. auto.
Qed.

Lemma converted_replaces (model : list (layer Tensor)) :
  forall rngs, List.Forall2 replaces model (fst (converted draw model rngs)).
Proof.
  induction model as [|x r IH]; intros rngs; [constructor |].
  destruct x as [c | l | f]; cbn [converted].
  - pose proof (new_Linear_features (conv_in_features _ c)
                  (conv_out_features _ c) rngs) as Hf.
    destruct (new_Linear draw _ _ rngs) as [l rngs1].
    specialize (IH rngs1). destruct (converted draw r rngs1). cbn [fst] in *.
    constructor; [| exact IH]. cbn. exists l. tauto.
  - specialize (IH rngs). destruct (converted draw r rngs). cbn [fst] in *.
    constructor; [reflexivity | exact IH].
  - specialize (IH rngs). destruct (converted draw r rngs). cbn [fst] in *.
    constructor; [reflexivity | exact IH].
Qed.

Lemma converted_no_Conv (model : list (layer Tensor)) :
  forall rngs, existsb is_Conv (fst (converted draw model rngs)) = false.
Proof.
  induction model as [|x r IH]; intros rngs; [reflexivity |].
  destruct x as [c | l | f]; cbn [converted].
  - destruct (new_Linear draw _ _ rngs) as [l rngs1].
    specialize (IH rngs1). now destruct (converted draw r rngs1).
  - specialize (IH rngs). now destruct (converted draw r rngs).
  - specialize (IH rngs). now destruct (converted draw r rngs).
Qed.

Lemma converted_without_Conv (model : list (layer Tensor)) :
  existsb is_Conv model = false ->
  forall rngs, converted draw model rngs = (model, rngs).
Proof.
  induction model as [|x r IH]; intros H rngs; [reflexivity |].
  cbn [existsb] in H. apply orb_false_iff in H. destruct H as [Hx Hr].
  destruct x as [c | l | f]; [discriminate Hx | |];
    cbn [converted]; now rewrite (IH Hr).
Qed.

(** X4: On a stack with at least one layer, the surgery keeps the number of
    layers and every layer that is not a [Conv] where it is, and puts in the
    place of each [Conv] a [Linear] with the [in_features] and
    [out_features] of that [Conv]. *)
Theorem surgery_replaces (model : list (layer Tensor)) (rngs : Rngs) :
  model <> [] ->
  List.length (fst (surgery draw model rngs)) = List.length model /\
  List.Forall2 replaces model (fst (surgery draw model rngs)).
Proof.
  intros _. rewrite surgery_converted.
  pose proof (converted_replaces model rngs) as H.
  split; [| exact H]. symmetry. eapply Forall2_length; eauto.
Qed.

(** X5: On a stack with at least one layer, no [Conv] is left after the
    surgery, and the stack still has a layer, so doing the surgery again
    changes nothing: not the layers, and not the shared [rngs], from which
    nothing is drawn. *)
Theorem surgery_idempotent (model : list (layer Tensor)) (rngs rngs' : Rngs) :
  model <> [] ->
  let model' := fst (surgery draw model rngs) in
  model' <> [] /\
  existsb is_Conv model' = false /\
  surgery draw model' rngs' = (model', rngs').
Proof.
  intros Hne. cbv zeta. rewrite !surgery_converted.
  pose proof (converted_no_Conv model rngs) as H.
  pose proof (converted_replaces model rngs) as HR.
  split; [| split; [exact H | now apply converted_without_Conv]].
  intros E. rewrite E in HR. apply Forall2_length in HR.
  destruct model; [now apply Hne | discriminate HR].
Qed.

(** X6: The draws from the shared [rngs] go from left to right: the first
    [Conv] of the stack gets its parameters from [rngs] as it was passed in,
    and the layers after it are treated with what that draw left of [rngs]. *)
Theorem surgery_left_to_right (a b : list (layer Tensor)) (c : Conv Tensor)
    (rngs : Rngs) :
  existsb is_Conv a = false ->
  let '(l, rngs1) :=
    new_Linear draw (conv_in_features _ c) (conv_out_features _ c) rngs in
  surgery draw (a ++ ConvLayer c :: b) rngs =
  (a ++ LinearLayer l :: fst (surgery draw b rngs1),
   snd (surgery draw b rngs1)).
Proof.
  intros Ha. rewrite surgery_converted.
  destruct (new_Linear draw _ _ rngs) as [l rngs1] eqn:El.
  rewrite surgery_converted. clear - Ha El.
  induction a as [|x r IH]; cbn [app converted].
  - rewrite El. now destruct (converted draw b rngs1).
  - cbn [existsb] in Ha. apply orb_false_iff in Ha. destruct Ha as [Hx Hr].
    destruct x as [c' | l' | f]; [discriminate Hx | |];
      rewrite (IH Hr); reflexivity.
Qed.

End SurgeryFacts.

Section SurgeryExamples.
Import Nnx Notebook Cells CellExamples.
Local Open Scope list_scope.

(** The surgery of the notebook: the two [Conv] become [Linear] with the same
    features, the four other entries stay. *)
Example notebook_surgery :
  List.map (fun x => match x with
                     | LinearLayer l =>
                         ("Linear", Notebook.in_features l,
                          Notebook.out_features _ l)
                     | ConvLayer c =>
                         ("Conv", conv_in_features _ c, conv_out_features _ c)
                     | Callable _ => ("callable", 0, 0)
                     end%Z)
           (fst (surgery counter_draw notebook_stack 6)) =
  [ ("Linear", 1, 16); ("callable", 0, 0); ("Linear", 16, 32);
    ("callable", 0, 0); ("callable", 0, 0); ("Linear", 1568, 10) ]%Z.
Proof. vm_compute. reflexivity. Qed.

Lemma surgery_replaces_witness :
  List.length (fst (surgery counter_draw notebook_stack 6))
  = List.length notebook_stack /\
  List.Forall2 replaces notebook_stack
    (fst (surgery counter_draw notebook_stack 6)).
Proof.
  apply (surgery_replaces Z nat counter_draw notebook_stack 6).
  discriminate.
Defined.

Lemma surgery_idempotent_witness :
  fst (surgery counter_draw notebook_stack 6) <> [] /\
  existsb is_Conv (fst (surgery counter_draw notebook_stack 6)) = false /\
  surgery counter_draw (fst (surgery counter_draw notebook_stack 6)) 0
  = (fst (surgery counter_draw notebook_stack 6), 0).
Proof.
  apply (surgery_idempotent Z nat counter_draw notebook_stack 6 0).
  discriminate.
Defined.

Lemma surgery_left_to_right_witness :
  let '(l, rngs1) := new_Linear counter_draw 1 16 6 in
  surgery counter_draw
    ([Callable "lambda x: x"] ++ ConvLayer (toy_conv 1 16)
       :: [ConvLayer (toy_conv 16 32)]) 6 =
  ([Callable "lambda x: x"] ++ LinearLayer l
     :: fst (surgery counter_draw [ConvLayer (toy_conv 16 32)] rngs1),
   snd (surgery counter_draw [ConvLayer (toy_conv 16 32)] rngs1)).
Proof.
  apply (surgery_left_to_right Z nat counter_draw [Callable "lambda x: x"]
           [ConvLayer (toy_conv 16 32)] (toy_conv 1 16) 6).
  reflexivity.
Defined.

End SurgeryExamples.

(** ** Variables with hooks *)

Section HooksFacts.
Import Cells.

Variable A : Type.

Lemma T_involutive (a : NDArray A) : same (T (T a)) a.
Proof.
  split; cbn.
  - apply rev_involutive.
  - intros idx. now rewrite rev_involutive.
Qed.

Lemma same_refl (a : NDArray A) : same a a.
Proof. split; reflexivity. Qed.

(** X7: The hooks of a variable class undo each other: [get_value] on a
    variable created from an array gives that array back, and so does
    [get_value] on the variable that [set_value] returns, for both classes;
    for a [TransposedParam] what is stored in between is the transpose; the
    variable that [set_value] returns has the class and the metadata of the
    one it was called on. *)
Theorem hooks_round_trip (c : variable_class) (v : NDArray A)
    (meta : list (string * string)) (self : Variable_ A) :
  same (get_value (new_variable c v meta)) v /\
  same (get_value (set_value self v)) v /\
  value (new_variable TransposedParam v meta) = T v /\
  (class self = TransposedParam -> value (set_value self v) = T v) /\
  class (set_value self v) = class self /\
  metadata (set_value self v) = metadata self.
Proof.
  repeat split.
  - destruct c; cbn; [reflexivity | apply rev_involutive].
  - destruct c; cbn; [reflexivity |]. intros idx. now rewrite rev_involutive.
  - unfold get_value, set_value. destruct (class self) eqn:E; cbn;
      rewrite ?E; cbn; [reflexivity | apply rev_involutive].
  - unfold get_value, set_value. destruct (class self) eqn:E; cbn;
      rewrite ?E; cbn; [reflexivity |]. intros idx. now rewrite rev_involutive.
  - intros E. unfold set_value. now rewrite E.
  - unfold set_value. now destruct (class self).
  - unfold set_value. now destruct (class self).
Qed.

Variable Rngs : Type.
Variable uniform : Rngs -> list nat -> A.
Variable zero : A.

(** X8: An [OddLinear(din, dout)] shows its kernel with shape [(din, dout)],
    as it was drawn, while the state that split returns holds it with shape
    [(dout, din)], element [(j, i)] of the one being element [(i, j)] of the
    other; the bias is held as it is shown. *)
Theorem OddLinear_kernel_views (din dout : nat) (rngs : Rngs) :
  let model := OddLinear__init__ uniform zero din dout rngs in
  shape (OddLinear_kernel model) = [din; dout] /\
  List.map (fun kv => (fst kv, shape (snd kv))) (OddLinear_state model) =
    [("bias", [dout]); ("kernel", [dout; din])] /\
  (forall i j, item (value (odd_kernel model)) [j; i] = uniform rngs [i; j] /\
               item (OddLinear_kernel model) [i; j] = uniform rngs [i; j]) /\
  OddLinear_bias model = value (odd_bias model).
Proof.
  cbv zeta. split; [| split; [| split]].
  - reflexivity.
  - reflexivity.
  - intros i j. split; reflexivity.
  - reflexivity.
Qed.

End HooksFacts.

(** ** The test step over the matrix of its job *)

Section MatrixStepFacts.
Import Shell Workflow Build Steps.

(** X18: For every combination of the matrix of the [tests] job, the test step
    runs the test runner, once, with the flags of that combination's test
    type, and ends with the runner's status: the branch that prints "Unknown
    test type" and exits with status 1 is never taken. *)
Theorem tests_step_on_matrix (c : combo) (w : world)
    (env rest : string -> string) :
  In c (job_matrix tests) ->
  let ctx := matrix_context c rest in
  let run := run_script w (pipefail tests_step) env (script_of tests_step ctx) in
  In (ctx "matrix.test-type") test_types /\
  trace (snd run) = [runner_argv (ctx "matrix.test-type")] /\
  stdout (snd run) = [] /\
  fst run = fst (w [] (runner_argv (ctx "matrix.test-type")) "").
Proof.
  rewrite tests_job_matrix. intros Hc. cbv zeta.
  change (pipefail tests_step) with false.
  cbn [In] in Hc.
  repeat (destruct Hc as [<- | Hc];
          [unfold script_of, run_script, tests_script; cbn;
           rewrite pasted_plain by reflexivity; cbn;
           destruct (w [] _ "") as [rc o]; cbn; rewrite status_errexit;
           repeat split; auto 10 |]).
  destruct Hc.
Qed.

Lemma tests_step_on_matrix_witness :
  let c := [("python-version", "3.9"); ("test-type", "pytype")] in
  let ctx := matrix_context c (fun _ => "") in
  let run := run_script (world_counting 0) (pipefail tests_step)
               (fun _ => "") (script_of tests_step ctx) in
  In (ctx "matrix.test-type") test_types /\
  trace (snd run) = [runner_argv (ctx "matrix.test-type")] /\
  stdout (snd run) = [] /\
  fst run = fst (world_counting 0 [] (runner_argv (ctx "matrix.test-type")) "").
Proof.
  apply (tests_step_on_matrix
           [("python-version", "3.9"); ("test-type", "pytype")]
           (world_counting 0) (fun _ => "") (fun _ => "")).
  rewrite tests_job_matrix. simpl. tauto.
Defined.

End MatrixStepFacts.

(** ** Merging a state given in parts *)

Section MergeParts.
Import Nnx.

(** X20: [static.merge(params, counts)]: when two states that share no path
    make up together the state that split returned, merging them, in either
    order, gives back the module. *)
Theorem merge_in_parts (Tensor : Type) (m : Module_ Tensor)
    (S1 S2 : gmap string (Array Tensor)) :
  well_formed m = true ->
  S1 ##ₘ S2 ->
  S1 ∪ S2 = fst (split m) ->
  merge (snd (split m)) [S1; S2] = Some m /\
  merge (snd (split m)) [S2; S1] = Some m.
Proof.
  intros Hwf Hd E. split; apply merge_parts; auto.
  now rewrite map_union_comm.
Qed.

End MergeParts.

Section MergePartsExamples.
Import Nnx Notebook Cells Examples CellExamples.

Lemma merge_in_parts_witness :
  merge (snd (split (CounterLinear_module (toy_model 0))))
        [toy_params; toy_counts]
  = Some (CounterLinear_module (toy_model 0)) /\
  merge (snd (split (CounterLinear_module (toy_model 0))))
        [toy_counts; toy_params]
  = Some (CounterLinear_module (toy_model 0)).
Proof.
  apply (merge_in_parts Z (CounterLinear_module (toy_model 0))
           toy_params toy_counts).
  - reflexivity.
  - unfold toy_params, toy_counts.
    apply map_disjoint_insert_l_2; [reflexivity |].
    apply map_disjoint_singleton_l_2. reflexivity.
  - vm_compute. reflexivity.
Defined.

End MergePartsExamples.
